(** * Global urban temperatures: the data pipeline of [app.py]

    A shallow embedding of the part of [app.py] that turns the CSV into the
    aggregated frame handed to the map: [load_data] (schema check, lenient
    coercion of dates and temperatures, [dropna], the coordinate normalizer
    [_to_float], the sort by date) and the module body up to the colour
    range (clamp to 1743-2013, time grouping, [groupby(...).agg(mean)],
    rounding to one decimal, global colour range).

    Conventions of the model.
    - The whole pipeline is modelled with exact numbers: a Python/pandas
      float is a [pyfloat], an exact rational or NaN ([None]).  pandas marks
      a missing cell by NaN, so "absent" and NaN are one value, as in the
      program.  This is the model of what the program does with text,
      dates, keys and errors.
    - The module body (lines 69-107) is modelled a second time in
      [Binary64], on the machine floats of the kernel, with binary64
      rounding, the infinities and NaN.  The aggregated numbers depend on
      these: the order in which a sum is taken, a mean of [inf] and [-inf],
      the product and quotient inside [round].  What is claimed of the
      numbers is settled there.
    - Strings are sequences of ASCII characters, compared as Python compares
      [str] values (lexicographically by code point).
    - The text parsers of Python and pandas ([float], [pd.to_numeric],
      [pd.to_datetime]) are library code: they are parameters of the model. *)

From Stdlib Require Import Ascii String QArith Qcanon.
From Stdlib Require Floats.
From stdpp Require Import base option list strings gmap sorting pretty numbers.

Local Open Scope string_scope.
Local Open Scope Z_scope.

(** ** Values *)

(** A float: a number, or NaN. *)
Definition pyfloat : Type := option Qc.

Definition NaN : pyfloat := None.

(** [x * y] on floats; NaN propagates. *)
Definition fmul (x y : pyfloat) : pyfloat :=
  match x, y with
  | Some a, Some b => Some (a * b)%Qc
  | _, _ => NaN
  end.

(** [-x] on floats. *)
Definition fneg (x : pyfloat) : pyfloat :=
  match x with
  | Some a => Some (- a)%Qc
  | None => NaN
  end.

Definition f_one : pyfloat := Some 1%Qc.
Definition f_minus_one : pyfloat := Some (- 1)%Qc.

(** A cell of the frame as [pd.read_csv] delivers it: a float (NaN when the
    field is empty) in a numeric column, a [str] or NaN in an object column. *)
Inductive cell : Type :=
  | CNum (x : pyfloat)
  | CStr (s : string).

(** [pd.isna] on a cell. *)
Definition isna (c : cell) : bool :=
  match c with
  | CNum None => true
  | _ => false
  end.

(** Exceptions of the run. *)
Inductive exn : Type :=
  | FileNotFoundError
  | ValueError_MissingColumns (missing : gset string)
  | ValueError_CouldNotConvert (s : string)
  | ValueError_UnableToParse (c : cell).

Inductive result (A : Type) : Type :=
  | Ok (a : A)
  | Raise (e : exn).
Arguments Ok {A} a.
Arguments Raise {A} e.

#[global] Instance result_ret : MRet result := fun A a => Ok a.

#[global] Instance result_bind : MBind result := fun A B k m =>
  match m with
  | Ok a => k a
  | Raise e => Raise e
  end.

(** [Series.apply(f)]: [f] on each element in row order; the first exception
    ends the call. *)
Fixpoint apply_series {A B} (f : A → result B) (l : list A) : result (list B) :=
  match l with
  | [] => Ok []
  | a :: l' => b ← f a; bs ← apply_series f l'; Ok (b :: bs)
  end.

(** ** Python string operations used by [_to_float] *)

(** [str.isspace] on an ASCII character: TAB, LF, VT, FF, CR, FS, GS, RS, US
    and the space. *)
Definition is_space (c : ascii) : bool :=
  let n := N_of_ascii c in
  ((9 <=? n)%N && (n <=? 13)%N) || ((28 <=? n)%N && (n <=? 32)%N).

Fixpoint lstrip (s : string) : string :=
  match s with
  | EmptyString => EmptyString
  | String c s' => if is_space c then lstrip s' else s
  end.

Fixpoint rstrip (s : string) : string :=
  match s with
  | EmptyString => EmptyString
  | String c s' =>
      match rstrip s' with
      | EmptyString => if is_space c then EmptyString else String c EmptyString
      | r => String c r
      end
  end.

(** [s.strip()] *)
Definition strip (s : string) : string := rstrip (lstrip s).

(** [s[-1]], for a non-empty [s]. *)
Fixpoint str_last (s : string) : option ascii :=
  match s with
  | EmptyString => None
  | String c EmptyString => Some c
  | String _ s' => str_last s'
  end.

(** [s[:-1]] *)
Fixpoint str_init (s : string) : string :=
  match s with
  | EmptyString => EmptyString
  | String _ EmptyString => EmptyString
  | String c s' => String c (str_init s')
  end.

(** [c in t] for a one-character [c]. *)
Fixpoint char_in (c : ascii) (t : string) : bool :=
  match t with
  | EmptyString => false
  | String d t' => Ascii.eqb c d || char_in c t'
  end.

(** ** The coordinate normalizer *)

Section ToFloat.

(** Python's [float(s)] on a [str]: [None] is the [ValueError]. *)
Variable py_float : string → option pyfloat.

(** [_to_float], lines 44-53. *)
Definition _to_float (x : cell) : result pyfloat :=
  match x with
  | CNum v => Ok v
  | CStr x =>
      let s := strip x in
      let '(mult, s) :=
        match str_last s with
        | Some c =>
            if char_in c "NSEW"
            then ((if char_in c "SW" then f_minus_one else f_one), str_init s)
            else (f_one, s)
        | None => (f_one, s)
        end in
      match py_float s with
      | Some v => Ok (fmul v mult)
      | None => Raise (ValueError_CouldNotConvert s)
      end
  end.

End ToFloat.

(** ** Frames *)

(** A calendar timestamp, as [pd.Timestamp] shows it: the date and the time
    of day in nanoseconds.  pandas orders timestamps by their offset from the
    epoch, which for calendar fields is the lexicographic order below. *)
Record Timestamp : Type := mkTimestamp {
  year : Z;
  month : Z;
  day : Z;
  nanos : Z
}.

Definition ts_compare (a b : Timestamp) : comparison :=
  match Z.compare (year a) (year b) with
  | Eq =>
      match Z.compare (month a) (month b) with
      | Eq =>
          match Z.compare (day a) (day b) with
          | Eq => Z.compare (nanos a) (nanos b)
          | c => c
          end
      | c => c
      end
  | c => c
  end.

Definition ts_leb (a b : Timestamp) : bool :=
  match ts_compare a b with
  | Gt => false
  | _ => true
  end.

(** One row of a frame.  The column types are parameters because the program
    re-assigns columns with values of another dtype: [D] for [dt], [T] and
    [U] for the two temperature columns, [S] for the text columns, [La] and
    [Lo] for the coordinates. *)
Record Row (D T U S La Lo : Type) : Type := mkRow {
  dt : D;
  AverageTemperature : T;
  AverageTemperatureUncertainty : U;
  City : S;
  Country : S;
  Latitude : La;
  Longitude : Lo
}.
Arguments mkRow {D T U S La Lo}.
Arguments dt {D T U S La Lo}.
Arguments AverageTemperature {D T U S La Lo}.
Arguments AverageTemperatureUncertainty {D T U S La Lo}.
Arguments City {D T U S La Lo}.
Arguments Country {D T U S La Lo}.
Arguments Latitude {D T U S La Lo}.
Arguments Longitude {D T U S La Lo}.

(** [df[c] = v], one definition per assigned column. *)
Definition set_dt {D D' T U S La Lo} (v : D') (r : Row D T U S La Lo) :=
  mkRow v (AverageTemperature r) (AverageTemperatureUncertainty r)
    (City r) (Country r) (Latitude r) (Longitude r).
Definition set_AverageTemperature {D T T' U S La Lo} (v : T') (r : Row D T U S La Lo) :=
  mkRow (dt r) v (AverageTemperatureUncertainty r)
    (City r) (Country r) (Latitude r) (Longitude r).
Definition set_AverageTemperatureUncertainty {D T U U' S La Lo} (v : U')
    (r : Row D T U S La Lo) :=
  mkRow (dt r) (AverageTemperature r) v
    (City r) (Country r) (Latitude r) (Longitude r).
Definition set_Latitude {D T U S La La' Lo} (v : La') (r : Row D T U S La Lo) :=
  mkRow (dt r) (AverageTemperature r) (AverageTemperatureUncertainty r)
    (City r) (Country r) v (Longitude r).
Definition set_Longitude {D T U S La Lo Lo'} (v : Lo') (r : Row D T U S La Lo) :=
  mkRow (dt r) (AverageTemperature r) (AverageTemperatureUncertainty r)
    (City r) (Country r) (Latitude r) v.

(** [df[c] = f(df[c])] for an element-wise [f] that may raise: the rows are
    visited in order and the first exception ends the statement. *)
Definition assign {R R' A B} (get : R → A) (set : B → R → R')
    (f : A → result B) (df : list R) : result (list R') :=
  apply_series (λ r, v ← f (get r); Ok (set v r)) df.

(** The row as read from the CSV.  [City] and [Country] are text columns:
    a string, or missing. *)
Abbreviation RawRow := (Row cell cell cell (option string) cell cell).

(** After lines 39-41: dates and temperatures are typed, or missing. *)
Abbreviation CoercedRow :=
  (Row (option Timestamp) pyfloat pyfloat (option string) cell cell).

(** After [dropna]: the columns of the subset hold a value in every row. *)
Abbreviation DroppedRow := (Row Timestamp Qc pyfloat string cell cell).

(** What [load_data] returns. *)
Abbreviation LoadedRow := (Row Timestamp Qc pyfloat string pyfloat pyfloat).

(** The result of [pd.read_csv]: the header and the rows.  A field of a row
    whose column is not in the header is never read, since [load_data]
    raises before. *)
Record DataFrame : Type := mkDataFrame {
  columns : list string;
  rows : list RawRow
}.

(** ** [load_data] *)

(** The [errors=] keyword of [pd.to_datetime] and [pd.to_numeric]. *)
Inductive errors_policy : Type :=
  | errors_raise
  | errors_coerce.

(** Line 26. *)
Definition expected : gset string :=
  list_to_set
    ["dt"; "AverageTemperature"; "AverageTemperatureUncertainty";
     "City"; "Country"; "Latitude"; "Longitude"].

(** Line 42, [dropna(subset=[dt, AverageTemperature, Latitude, Longitude,
    City, Country])], on one row: the row is dropped when one of the six is
    missing. *)
Definition dropna_row (r : CoercedRow) : option DroppedRow :=
  match dt r, AverageTemperature r, City r, Country r with
  | Some d, Some t, Some c, Some k =>
      if isna (Latitude r) || isna (Longitude r) then None
      else Some (mkRow d t (AverageTemperatureUncertainty r) c k
                   (Latitude r) (Longitude r))
  | _, _, _, _ => None
  end.

Definition dropna (df : list CoercedRow) : list DroppedRow :=
  omap dropna_row df.

(** Line 58, [df.sort_values("dt")].  Rows of the same date come out in
    an order that depends on their order in the file. *)
Definition dt_le {T U S La Lo} (a b : Row Timestamp T U S La Lo) : Prop :=
  ts_leb (dt a) (dt b).

Definition sort_values_dt {T U S La Lo} (df : list (Row Timestamp T U S La Lo)) :=
  merge_sort dt_le df.

(** [sorted(DATA_DIR.glob("*.csv"))]: the CSV files of the directory, each
    with the frame [pd.read_csv] makes of it, ordered by name. *)
Definition sorted_csvs (dir : list (string * DataFrame)) : list (string * DataFrame) :=
  merge_sort (λ a b, String.le a.1 b.1) dir.

Section LoadData.

(** [pd.to_datetime] on one cell that is not missing: a [str] by the date
    format pandas settles on for the column, a number as an offset from the
    epoch; [None] when pandas cannot convert it. *)
Variable to_datetime_scalar : cell → option Timestamp.

(** [pd.to_numeric] on one [str]; [None] when it is not a number. *)
Variable to_numeric_scalar : string → option pyfloat.

(** Python's [float(s)]. *)
Variable py_float : string → option pyfloat.

Definition pd_to_datetime (errors : errors_policy) (c : cell)
    : result (option Timestamp) :=
  if isna c then Ok None
  else
    match to_datetime_scalar c with
    | Some t => Ok (Some t)
    | None =>
        match errors with
        | errors_coerce => Ok None
        | errors_raise => Raise (ValueError_UnableToParse c)
        end
    end.

Definition pd_to_numeric (errors : errors_policy) (c : cell) : result pyfloat :=
  match c with
  | CNum v => Ok v
  | CStr s =>
      match to_numeric_scalar s with
      | Some v => Ok v
      | None =>
          match errors with
          | errors_coerce => Ok NaN
          | errors_raise => Raise (ValueError_UnableToParse c)
          end
      end
  end.

(** Lines 39-41. *)
Definition coerce_fields (df : list RawRow) : result (list CoercedRow) :=
  df ← assign dt set_dt (pd_to_datetime errors_coerce) df;
  df ← assign AverageTemperature set_AverageTemperature
         (pd_to_numeric errors_coerce) df;
  assign AverageTemperatureUncertainty set_AverageTemperatureUncertainty
    (pd_to_numeric errors_coerce) df.

(** What lines 39-41 leave in one row: a date or NaT, a number or NaN. *)
Definition coerce_row (r : RawRow) : CoercedRow :=
  mkRow
    (if isna (dt r) then None else to_datetime_scalar (dt r))
    (match AverageTemperature r with
     | CNum v => v
     | CStr s => default NaN (to_numeric_scalar s)
     end)
    (match AverageTemperatureUncertainty r with
     | CNum v => v
     | CStr s => default NaN (to_numeric_scalar s)
     end)
    (City r) (Country r) (Latitude r) (Longitude r).

(** Lines 55-56. *)
Definition normalize_coordinates (df : list DroppedRow) : result (list LoadedRow) :=
  df ← assign Latitude set_Latitude (_to_float py_float) df;
  assign Longitude set_Longitude (_to_float py_float) df.

(** [load_data], lines 18-59, on the directory listing. *)
Definition load_data (dir : list (string * DataFrame))
    : result (list LoadedRow * string) :=
  match sorted_csvs dir with
  | [] => Raise FileNotFoundError
  | (name, df) :: _ =>
      let missing := expected ∖ list_to_set (columns df) in
      if decide (missing ≠ ∅) then Raise (ValueError_MissingColumns missing)
      else
        df ← coerce_fields (rows df);
        let df := dropna df in
        df ← normalize_coordinates df;
        let df := sort_values_dt df in
        Ok (df, name)
  end.

End LoadData.

(** ** The module body: clamp, time grouping, aggregation *)

(** The bounds of line 69, as pandas reads the two strings. *)
Definition clamp_lo : Timestamp := mkTimestamp 1743 1 1 0.
Definition clamp_hi : Timestamp := mkTimestamp 2013 12 31 0.

(** Line 69. *)
Definition clamp (df : list LoadedRow) : list LoadedRow :=
  filter (λ r, ts_leb clamp_lo (dt r) && ts_leb (dt r) clamp_hi) df.

Inductive time_step : Type :=
  | Yearly
  | Monthly.

(** [to_period(freq).to_timestamp()]: the first instant of the period. *)
Definition period_start (step : time_step) (d : Timestamp) : Timestamp :=
  match step with
  | Yearly => mkTimestamp (year d) 1 1 0
  | Monthly => mkTimestamp (year d) (month d) 1 0
  end.

(** [%m]: the month on two digits. *)
Definition pad2 (m : Z) : string :=
  if m <? 10 then "0" +:+ pretty m else pretty m.

(** [t.dt.year.astype(str)] and [t.dt.strftime("%Y-%m")]. *)
Definition period_label (step : time_step) (t : Timestamp) : string :=
  match step with
  | Yearly => pretty (year t)
  | Monthly => pretty (year t) +:+ "-" +:+ pad2 (month t)
  end.

(** A row with the two columns of lines 75-80. *)
Record Binned : Type := mkBinned {
  base : LoadedRow;
  t : Timestamp;
  t_label : string
}.

(** Lines 75-80. *)
Definition time_grouping (step : time_step) (df : list LoadedRow) : list Binned :=
  (λ r, let t := period_start step (dt r) in
        mkBinned r t (period_label step t)) <$> df.

(** *** [groupby(keys).agg(mean)] *)

(** The running mean of one column of one group: the sum and the number of
    the values that are not NaN. *)
Record Mean : Type := mkMean {
  total : Qc;
  count : positive
}.

(** The accumulator of a column: [None] while the group has no value that
    is not NaN in it. *)
Definition mean_add (x : pyfloat) (m : option Mean) : option Mean :=
  match x, m with
  | None, _ => m
  | Some a, None => Some (mkMean a 1)
  | Some a, Some m => Some (mkMean (total m + a)%Qc (Pos.succ (count m)))
  end.

(** [mean()] skips NaN; it is NaN when nothing is left. *)
Definition mean_value (m : option Mean) : pyfloat :=
  match m with
  | None => NaN
  | Some m => Some (total m / Q2Qc (Zpos (count m) # 1))%Qc
  end.

Definition key : Type := string * string * string.

(** Three-way comparisons that are total orders. *)
Class TotalCompare {A : Type} (cmp : A → A → comparison) : Prop := {
  cmp_eq a b : cmp a b = Eq → a = b;
  cmp_refl a : cmp a a = Eq;
  cmp_antisym a b : cmp a b = CompOpp (cmp b a);
  cmp_trans a b c : cmp a b = Lt → cmp b c = Lt → cmp a c = Lt
}.

(** Python compares tuples item by item. *)
Definition lex_compare {A B : Type} (ca : A → A → comparison)
    (cb : B → B → comparison) (x y : A * B) : comparison :=
  match ca x.1 y.1 with
  | Eq => cb x.2 y.2
  | c => c
  end.

(** Tuples of three [str], each compared by code points. *)
Definition key_compare : key → key → comparison :=
  lex_compare (lex_compare String.compare String.compare) String.compare.

(** The four aggregated columns of one group. *)
Record Group : Type := mkGroup {
  g_AverageTemperature : option Mean;
  g_AverageTemperatureUncertainty : option Mean;
  g_Latitude : option Mean;
  g_Longitude : option Mean
}.

Definition group_empty : Group := mkGroup None None None None.

Definition group_add (r : Binned) (g : Group) : Group :=
  mkGroup
    (mean_add (Some (AverageTemperature (base r))) (g_AverageTemperature g))
    (mean_add (AverageTemperatureUncertainty (base r))
       (g_AverageTemperatureUncertainty g))
    (mean_add (Latitude (base r)) (g_Latitude g))
    (mean_add (Longitude (base r)) (g_Longitude g)).

Definition row_key (r : Binned) : key := (t_label r, City (base r), Country (base r)).

(** One row enters the table of groups, which [groupby] keeps in ascending
    key order ([sort=True]). *)
Fixpoint group_insert (r : Binned) (gs : list (key * Group)) : list (key * Group) :=
  match gs with
  | [] => [(row_key r, group_add r group_empty)]
  | (k, g) :: gs' =>
      match key_compare (row_key r) k with
      | Lt => (row_key r, group_add r group_empty) :: gs
      | Eq => (k, group_add r g) :: gs'
      | Gt => (k, g) :: group_insert r gs'
      end
  end.

Definition groupby (df : list Binned) : list (key * Group) :=
  foldl (λ gs r, group_insert r gs) [] df.

(** The aggregated frame [agg]: the three keys as columns ([as_index=False])
    and the four means. *)
Module agg.
Record row : Type := mk {
  t_label : string;
  City : string;
  Country : string;
  AverageTemperature : pyfloat;
  AverageTemperatureUncertainty : pyfloat;
  Latitude : pyfloat;
  Longitude : pyfloat
}.
End agg.

(** Lines 83-91. *)
Definition aggregate (df : list Binned) : list agg.row :=
  (λ kg : key * Group,
     let (k, g) := kg in
     agg.mk k.1.1 k.1.2 k.2
       (mean_value (g_AverageTemperature g))
       (mean_value (g_AverageTemperatureUncertainty g))
       (mean_value (g_Latitude g))
       (mean_value (g_Longitude g))) <$> groupby df.

(** *** Rounding *)

(** [np.rint] on an exact value: the nearest integer, a tie going to the
    even one. *)
Definition rint (q : Qc) : Z :=
  let n := Qnum q in
  let d := Zpos (Qden q) in
  let f := n `div` d in
  match 2 * (n `mod` d) ?= d with
  | Lt => f
  | Gt => f + 1
  | Eq => if Z.even f then f else f + 1
  end.

(** [Series.round(decimals)] is numpy's: scale by [10 ** decimals], [rint],
    scale back.  NaN stays NaN. *)
Definition round_ (decimals : nat) (x : pyfloat) : pyfloat :=
  match x with
  | Some q =>
      let f := Qc_of_Z (10 ^ Z.of_nat decimals) in
      Some (Qc_of_Z (rint (q * f)) / f)%Qc
  | None => NaN
  end.

(** Lines 93-94. *)
Definition round_temperatures (a : list agg.row) : list agg.row :=
  (λ r, agg.mk (agg.t_label r) (agg.City r) (agg.Country r)
          (round_ 1 (agg.AverageTemperature r))
          (round_ 1 (agg.AverageTemperatureUncertainty r))
          (agg.Latitude r) (agg.Longitude r)) <$> a.

(** *** Colour range *)

Definition fmin (x y : pyfloat) : pyfloat :=
  match x, y with
  | Some a, Some b => Some (if decide (a ≤ b)%Qc then a else b)
  | Some a, None => Some a
  | None, _ => y
  end.

Definition fmax (x y : pyfloat) : pyfloat :=
  match x, y with
  | Some a, Some b => Some (if decide (a ≤ b)%Qc then b else a)
  | Some a, None => Some a
  | None, _ => y
  end.

(** [Series.min()] and [Series.max()]: NaN is skipped; the result is NaN
    when no value is left. *)
Definition series_min (l : list pyfloat) : pyfloat := foldr fmin NaN l.
Definition series_max (l : list pyfloat) : pyfloat := foldr fmax NaN l.

(** Lines 101-107. *)
Definition range_color (USE_GLOBAL_COLOR_SCALE : bool) (a : list agg.row)
    : option (pyfloat * pyfloat) :=
  if USE_GLOBAL_COLOR_SCALE
  then Some (series_min (agg.AverageTemperature <$> a),
             series_max (agg.AverageTemperature <$> a))
  else None.

(** *** Reading the order of the output

    The aggregated frame has the label of the period, not its start; the
    start is read back from the label. *)

(** The number written by a string of decimal digits, read from [acc]. *)
Fixpoint read_digits (s : string) (acc : N) : option N :=
  match s with
  | EmptyString => Some acc
  | String c s' =>
      match Ascii.is_nat c with
      | Some d => read_digits s' (10 * acc + N.of_nat d)%N
      | None => None
      end
  end.

(** [int(s)] for a string of digits. *)
Definition int_of_digits (s : string) : option Z :=
  if bool_decide (s = EmptyString) then None
  else Z.of_N <$> read_digits s 0.

(** The period a label stands for: ["1900"] is the year 1900, ["1900-02"]
    is February 1900. *)
Definition period_of_label (step : time_step) (s : string) : option Timestamp :=
  match step with
  | Yearly => y ← int_of_digits s; Some (mkTimestamp y 1 1 0)
  | Monthly =>
      if bool_decide (String.length s = 7%nat ∧ String.get 4 s = Some "-"%char)
      then
        y ← int_of_digits (substring 0 4 s);
        m ← int_of_digits (substring 5 2 s);
        Some (mkTimestamp y m 1 0)
      else None
  end.

(** [a] may come before [b]: an earlier period, or the same period and a
    city that is not greater. *)
Definition chronological_then_city (step : time_step) (a b : agg.row) : Prop :=
  match period_of_label step (agg.t_label a),
        period_of_label step (agg.t_label b) with
  | Some pa, Some pb =>
      ts_compare pa pb = Lt ∨ (pa = pb ∧ String.le (agg.City a) (agg.City b))
  | _, _ => False
  end.

(** The years of the clamp interval and the months of a year. *)
Definition clamp_years : list Z := seqZ 1743 271.
Definition calendar_months : list Z := seqZ 1 12.

(** The start of a period of the clamp interval. *)
Definition in_period (step : time_step) (p : Timestamp) : Prop :=
  1743 ≤ year p ≤ 2013 ∧ day p = 1 ∧ nanos p = 0 ∧
  match step with
  | Yearly => month p = 1
  | Monthly => 1 ≤ month p ≤ 12
  end.

(** The groups of the table are in strictly ascending key order. *)
Definition key_lt (a b : key * Group) : Prop := key_compare a.1 b.1 = Lt.

(** The grouping key of an aggregated row. *)
Definition agg_key (r : agg.row) : key :=
  (agg.t_label r, agg.City r, agg.Country r).

(** ** The run *)

(** How the script ends: with the frame and the colour range handed to the
    figure, by [st.stop()] after an [st.error], or by an exception. *)
Inductive outcome (A : Type) : Type :=
  | Done (a : A)
  | Stopped (msg : string)
  | Failed (e : exn).
Arguments Done {A} a.
Arguments Stopped {A} msg.
Arguments Failed {A} e.

Section App.

Variable to_datetime_scalar : cell → option Timestamp.
Variable to_numeric_scalar : string → option pyfloat.
Variable py_float : string → option pyfloat.

(** The two settings of lines 13-14. *)
Variable TIME_STEP : time_step.
Variable USE_GLOBAL_COLOR_SCALE : bool.

(** Lines 65-107. *)
Definition app (dir : list (string * DataFrame))
    : outcome (list agg.row * option (pyfloat * pyfloat)) :=
  match load_data to_datetime_scalar to_numeric_scalar py_float dir with
  | Raise e => Failed e
  | Ok (df, fname) =>
      let df := clamp df in
      if bool_decide (df = []) then Stopped "No data in required range."
      else
        let df := time_grouping TIME_STEP df in
        let a := aggregate df in
        let a := round_temperatures a in
        if bool_decide (a = []) then Stopped "No aggregated data available."
        else Done (a, range_color USE_GLOBAL_COLOR_SCALE a)
  end.

End App.

(** ** The module body on machine floats

    Lines 69-107 once more, with the columns in binary64 and the machine's
    arithmetic: every operation is rounded to nearest, ties to even, and
    the infinities and NaN are values.  The frame is taken as [load_data]
    returned it, each column with the dtype lines 39-56 gave it.  What the
    claims say of the numbers of the aggregated frame is checked here. *)
Module Binary64.
Import PrimInt63 PrimFloat.

(** A row of the frame that [load_data] returned. *)
Abbreviation LoadedRow := (Row Timestamp float float string float float).

(** The float of an integer below [2 ** 63] in magnitude. *)
Definition of_Z (z : Z) : float :=
  if z <? 0 then opp (of_uint63 (Uint63Axioms.of_Z (- z)))
  else of_uint63 (Uint63Axioms.of_Z z).

(** The float Python reads from the decimal literal of [n / 10 ** k]: the
    float nearest to it, which is what the division of the two integers,
    both exact as floats, rounds to. *)
Definition dec (n : Z) (k : nat) : float :=
  div (of_Z n) (of_Z (10 ^ Z.of_nat k)).

(** Line 69. *)
Definition clamp (df : list LoadedRow) : list LoadedRow :=
  filter (λ r, ts_leb clamp_lo (dt r) && ts_leb (dt r) clamp_hi) df.

Record Binned : Type := mkBinned {
  base : LoadedRow;
  t : Timestamp;
  t_label : string
}.

(** Lines 75-80. *)
Definition time_grouping (step : time_step) (df : list LoadedRow) : list Binned :=
  (λ r, let t := period_start step (dt r) in
        mkBinned r t (period_label step t)) <$> df.

(** *** [groupby(keys).agg(mean)]

    pandas' [group_mean] goes through the rows of the frame once, in row
    order, and keeps for each group and column the running sum, the
    compensation term of Kahan's summation and the number of values that
    are not NaN. *)
Record Mean : Type := mkMean {
  sumx : float;
  compensation : float;
  nobs : int
}.

Definition mean_empty : Mean := mkMean 0%float 0%float 0%uint63.

(** One value enters the running sum; NaN ([val != val]) is skipped.  With
    [compensated], as [group_mean] does it now: [y = val - compensation],
    [t = sumx + y], [compensation = t - sumx - y], reset to 0 when it is
    NaN.  Without, as older versions did: the plain sum. *)
Definition mean_add (compensated : bool) (val : float) (m : Mean) : Mean :=
  if eqb val val then
    if compensated then
      let y := sub val (compensation m) in
      let t := add (sumx m) y in
      let c := sub (sub t (sumx m)) y in
      mkMean t (if eqb c c then c else 0%float) (PrimInt63.add (nobs m) 1%uint63)
    else
      mkMean (add (sumx m) val) 0%float (PrimInt63.add (nobs m) 1%uint63)
  else m.

(** [sumx / nobs], NaN when the group has no value in the column. *)
Definition mean_value (m : Mean) : float :=
  if PrimInt63.eqb (nobs m) 0%uint63 then nan
  else div (sumx m) (of_uint63 (nobs m)).

Record Group : Type := mkGroup {
  g_AverageTemperature : Mean;
  g_AverageTemperatureUncertainty : Mean;
  g_Latitude : Mean;
  g_Longitude : Mean
}.

Definition group_empty : Group :=
  mkGroup mean_empty mean_empty mean_empty mean_empty.

Definition group_add (compensated : bool) (r : Binned) (g : Group) : Group :=
  mkGroup
    (mean_add compensated (AverageTemperature (base r)) (g_AverageTemperature g))
    (mean_add compensated (AverageTemperatureUncertainty (base r))
       (g_AverageTemperatureUncertainty g))
    (mean_add compensated (Latitude (base r)) (g_Latitude g))
    (mean_add compensated (Longitude (base r)) (g_Longitude g)).

Definition row_key (r : Binned) : key := (t_label r, City (base r), Country (base r)).

(** One row enters the table of groups, kept in ascending key order. *)
Fixpoint group_insert (compensated : bool) (r : Binned) (gs : list (key * Group))
    : list (key * Group) :=
  match gs with
  | [] => [(row_key r, group_add compensated r group_empty)]
  | (k, g) :: gs' =>
      match key_compare (row_key r) k with
      | Lt => (row_key r, group_add compensated r group_empty) :: gs
      | Eq => (k, group_add compensated r g) :: gs'
      | Gt => (k, g) :: group_insert compensated r gs'
      end
  end.

Definition groupby (compensated : bool) (df : list Binned) : list (key * Group) :=
  foldl (λ gs r, group_insert compensated r gs) [] df.

(** The aggregated frame. *)
Module agg.
Record row : Type := mk {
  t_label : string;
  City : string;
  Country : string;
  AverageTemperature : float;
  AverageTemperatureUncertainty : float;
  Latitude : float;
  Longitude : float
}.
End agg.

(** Lines 83-91. *)
Definition aggregate (compensated : bool) (df : list Binned) : list agg.row :=
  (λ kg : key * Group,
     let (k, g) := kg in
     agg.mk k.1.1 k.1.2 k.2
       (mean_value (g_AverageTemperature g))
       (mean_value (g_AverageTemperatureUncertainty g))
       (mean_value (g_Latitude g))
       (mean_value (g_Longitude g))) <$> groupby compensated df.

(** *** Rounding *)

Definition two52 : float := 0x1p52%float.

(** [np.rint] for the default rounding mode: below [2 ** 52] in magnitude,
    adding and subtracting [2 ** 52] leaves the nearest integer, a tie
    going to the even one; from there on every float is an integer.  The
    result has the sign of [x], also when it is zero. *)
Definition rint (x : float) : float :=
  let a := abs x in
  if ltb a two52 then
    let r := sub (add a two52) two52 in
    if get_sign x then opp r else r
  else x.

(** [Series.round(1)] is numpy's [rint(x * 10.0) / 10.0]. *)
Definition round1 (x : float) : float :=
  div (rint (mul x 10%float)) 10%float.

(** Lines 93-94. *)
Definition round_temperatures (a : list agg.row) : list agg.row :=
  (λ r, agg.mk (agg.t_label r) (agg.City r) (agg.Country r)
          (round1 (agg.AverageTemperature r))
          (round1 (agg.AverageTemperatureUncertainty r))
          (agg.Latitude r) (agg.Longitude r)) <$> a.

(** *** Colour range *)

(** The lesser and the greater of two values, NaN skipped. *)
Definition fmin (x y : float) : float :=
  if is_nan x then y
  else if is_nan y then x
  else if leb x y then x else y.

Definition fmax (x y : float) : float :=
  if is_nan x then y
  else if is_nan y then x
  else if leb x y then y else x.

(** [Series.min()] and [Series.max()]: NaN is skipped; the result is NaN
    when no value is left. *)
Definition series_min (l : list float) : float := foldr fmin nan l.
Definition series_max (l : list float) : float := foldr fmax nan l.

(** Lines 101-107. *)
Definition range_color (USE_GLOBAL_COLOR_SCALE : bool) (a : list agg.row)
    : option (float * float) :=
  if USE_GLOBAL_COLOR_SCALE
  then Some (series_min (agg.AverageTemperature <$> a),
             series_max (agg.AverageTemperature <$> a))
  else None.

(** Lines 69-107 on the frame [df] that [load_data] returned. *)
Definition app (TIME_STEP : time_step) (USE_GLOBAL_COLOR_SCALE compensated : bool)
    (df : list LoadedRow) : outcome (list agg.row * option (float * float)) :=
  let df := clamp df in
  if bool_decide (df = []) then Stopped "No data in required range."
  else
    let df := time_grouping TIME_STEP df in
    let a := aggregate compensated df in
    let a := round_temperatures a in
    if bool_decide (a = []) then Stopped "No aggregated data available."
    else Done (a, range_color USE_GLOBAL_COLOR_SCALE a).

(** *** Reading the table of groups *)

(** The grouping key of an aggregated row. *)
Definition agg_key (r : agg.row) : key :=
  (agg.t_label r, agg.City r, agg.Country r).

(** The groups of the table are in strictly ascending key order. *)
Definition key_lt (a b : key * Group) : Prop := key_compare a.1 b.1 = Lt.

(** The rows of the frame whose key is [k], in the order of the frame. *)
Definition group_rows (k : key) (df : list Binned) : list Binned :=
  filter (λ r, row_key r = k) df.

(** The accumulators of a group after its rows went in, one by one. *)
Definition group_fold (compensated : bool) (rs : list Binned) : Group :=
  foldl (λ g r, group_add compensated r g) group_empty rs.

(** The group stored under a key, if there is one. *)
Fixpoint group_lookup (k : key) (gs : list (key * Group)) : option Group :=
  match gs with
  | [] => None
  | (k', g) :: gs' => if decide (k' = k) then Some g else group_lookup k gs'
  end.

(** The mean of a column as [group_mean] computes it: the values go into
    the running sum in the order of the rows. *)
Definition running_mean (compensated : bool) (l : list float) : float :=
  mean_value (foldl (λ m x, mean_add compensated x m) mean_empty l).

(** *** Sample frames *)

Definition jan_15 : Timestamp := mkTimestamp 1900 1 15 0.

(** A reading at Paris. *)
Definition paris (d : Timestamp) (temp unc : float) : LoadedRow :=
  mkRow d temp unc "Paris" "France" (dec 4885 2) (dec 235 2).

(** Three readings of one day at Paris, 36.5, 17.55 and -39.5 degrees, as
    two files list them. *)
Definition same_day : list LoadedRow :=
  [paris jan_15 (dec 365 1) (dec 5 1);
   paris jan_15 (dec 1755 2) (dec 5 1);
   paris jan_15 (dec (-395) 1) (dec 5 1)].

Definition same_day_reordered : list LoadedRow :=
  [paris jan_15 (dec 365 1) (dec 5 1);
   paris jan_15 (dec (-395) 1) (dec 5 1);
   paris jan_15 (dec 1755 2) (dec 5 1)].

(** A year at Paris in which the file has [inf] for one month and [-inf]
    for another, and a reading of 5 degrees at Oslo. *)
Definition opposite_infinities : list LoadedRow :=
  [paris jan_15 infinity (dec 5 1);
   paris (mkTimestamp 1900 2 20 0) neg_infinity (dec 5 1);
   mkRow (mkTimestamp 1900 3 1 0) (dec 5 0) (dec 3 1) "Oslo" "Norway"
     (dec 5991 2) (dec 1075 2)].


(** Two readings at Paris and one at Oslo, as they enter [groupby] with
    yearly labels, and the same with Oslo between the two of Paris; the
    second of Paris and that of Oslo are of one day. *)
Definition two_cities : list Binned :=
  time_grouping Yearly
    [paris jan_15 (dec 101 1) (dec 5 1);
     paris (mkTimestamp 1900 2 20 0) (dec 124 1) (dec 4 1);
     mkRow (mkTimestamp 1900 2 20 0) (dec (-35) 1) (dec 3 1) "Oslo" "Norway"
       (dec 5991 2) (dec 1075 2)].

Definition two_cities_interleaved : list Binned :=
  time_grouping Yearly
    [paris jan_15 (dec 101 1) (dec 5 1);
     mkRow (mkTimestamp 1900 2 20 0) (dec (-35) 1) (dec 3 1) "Oslo" "Norway"
       (dec 5991 2) (dec 1075 2);
     paris (mkTimestamp 1900 2 20 0) (dec 124 1) (dec 4 1)].



End Binary64.

(** ** Reference readers

    Small instances of the three library parsers, for running the model on
    concrete frames: plain decimal literals ([45.50], [-3], [+0.5]) and ISO
    dates ([1900-01-15]).  Python and pandas accept more. *)

Fixpoint split_at_dot (s : string) : string * option string :=
  match s with
  | EmptyString => (EmptyString, None)
  | String c s' =>
      if Ascii.eqb c "." then (EmptyString, Some s')
      else let (a, b) := split_at_dot s' in (String c a, b)
  end.

Definition unsigned_literal (s : string) : option Qc :=
  let (ip, fp) := split_at_dot s in
  let fp := default EmptyString fp in
  if bool_decide (ip = EmptyString) then None
  else
    match read_digits ip 0, read_digits fp 0 with
    | Some i, Some f =>
        let scale := (10 ^ Z.of_nat (String.length fp)) in
        Some (Qc_of_Z (Z.of_N i * scale + Z.of_N f) / Qc_of_Z scale)%Qc
    | _, _ => None
    end.

Definition decimal_literal (s : string) : option Qc :=
  match strip s with
  | String "-" b => Qcopp <$> unsigned_literal b
  | String "+" b => unsigned_literal b
  | b => unsigned_literal b
  end.

Definition ref_float (s : string) : option pyfloat :=
  Some <$> decimal_literal s.

Definition ref_numeric (s : string) : option pyfloat :=
  Some <$> decimal_literal s.

Definition iso_date (s : string) : option Timestamp :=
  if bool_decide (String.length s = 10%nat
                  ∧ String.get 4 s = Some "-"%char
                  ∧ String.get 7 s = Some "-"%char) then
    match read_digits (substring 0 4 s) 0,
          read_digits (substring 5 2 s) 0,
          read_digits (substring 8 2 s) 0 with
    | Some y, Some m, Some d =>
        if bool_decide (1 ≤ m ≤ 12 ∧ 1 ≤ d ≤ 31)%N
        then Some (mkTimestamp (Z.of_N y) (Z.of_N m) (Z.of_N d) 0)
        else None
    | _, _, _ => None
    end
  else None.

Definition ref_datetime (c : cell) : option Timestamp :=
  match c with
  | CStr s => iso_date s
  | CNum _ => None
  end.

(** ** Sample frames *)

(** The header of the dataset. *)
Definition header : list string :=
  ["dt"; "AverageTemperature"; "AverageTemperatureUncertainty";
   "City"; "Country"; "Latitude"; "Longitude"].

(** The float written [n / 10 ** k]. *)
Definition dec (n : Z) (k : nat) : pyfloat :=
  Some (Qc_of_Z n / Qc_of_Z (10 ^ Z.of_nat k))%Qc.

(** A row of the dataset as [pd.read_csv] types it: the date and the
    coordinates are text, the temperatures are numbers. *)
Definition csv_row (d : string) (temp unc : pyfloat) (city country lat lon : string)
    : RawRow :=
  mkRow (CStr d) (CNum temp) (CNum unc) (Some city) (Some country)
    (CStr lat) (CStr lon).

Definition paris_jan : RawRow :=
  csv_row "1900-01-15" (dec 10123 3) (dec 5 1) "Paris" "France" "48.85N" "2.35E".
Definition paris_feb : RawRow :=
  csv_row "1900-02-20" (dec 12456 3) (dec 4 1) "Paris" "France" "48.85N" "2.35E".
Definition lima_1850 : RawRow :=
  csv_row "1850-06-01" (dec 205 1) NaN "Lima" "Peru" "12.05S" "77.04W".
Definition oslo_1900 : RawRow :=
  csv_row "1900-03-01" (dec (-35) 1) (dec 3 1) "Oslo" "Norway" "59.91N" "10.75E".
Definition paris_1600 : RawRow :=
  csv_row "1600-01-01" (dec 1 0) (dec 1 0) "Paris" "France" "48.85N" "2.35E".

Definition sample_dir : list (string * DataFrame) :=
  [("temperatures.csv",
    mkDataFrame header [paris_jan; oslo_1900; paris_feb; lima_1850; paris_1600])].

(** A file without the [Country] column. *)
Definition no_country_dir : list (string * DataFrame) :=
  [("temperatures.csv",
    mkDataFrame
      ["dt"; "AverageTemperature"; "AverageTemperatureUncertainty";
       "City"; "Latitude"; "Longitude"]
      [paris_jan; paris_feb])].

(** A row whose coordinates lie outside the globe. *)
Definition off_the_globe : RawRow :=
  csv_row "1900-01-15" (dec 100 1) (dec 5 1) "Nowhere" "Noland" "95.00N" "200.00E".

Definition off_the_globe_dir : list (string * DataFrame) :=
  [("temperatures.csv", mkDataFrame header [off_the_globe])].

(** A row whose latitude has a hemisphere letter after text that is not a
    number. *)
Definition bad_latitude : RawRow :=
  csv_row "1900-01-15" (dec 100 1) (dec 5 1) "Paris" "France" "4x.85N" "2.35E".

Definition bad_latitude_dir : list (string * DataFrame) :=
  [("temperatures.csv", mkDataFrame header [paris_jan; bad_latitude])].

(** A row whose longitude has no hemisphere letter and is not a number. *)
Definition bad_longitude : RawRow :=
  csv_row "1900-01-15" (dec 100 1) (dec 5 1) "Paris" "France" "48.85N" "east".

Definition bad_longitude_dir : list (string * DataFrame) :=
  [("temperatures.csv", mkDataFrame header [paris_jan; bad_longitude])].

(** ** Reading the table of groups

    What [groupby(...).agg(mean)] is meant to compute, said row by row: the
    group of a key is the rows that carry it, and [mean()] of a column is
    the sum of its values that are not NaN over their number. *)

(** The rows of the frame whose key is [k], in the order of the frame. *)
Definition group_rows (k : key) (df : list Binned) : list Binned :=
  filter (λ r, row_key r = k) df.

(** The accumulators of a group after its rows went in, one by one. *)
Definition group_fold (rs : list Binned) : Group :=
  foldl (λ g r, group_add r g) group_empty rs.

(** The group stored under a key, if there is one. *)
Fixpoint group_lookup (k : key) (gs : list (key * Group)) : option Group :=
  match gs with
  | [] => None
  | (k', g) :: gs' => if decide (k' = k) then Some g else group_lookup k gs'
  end.




(** A timestamp with a month, a day and a time of day. *)
Definition well_formed (p : Timestamp) : Prop :=
  1 ≤ month p ≤ 12 ∧ 1 ≤ day p ≤ 31 ∧ 0 ≤ nanos p.


(** Two rows as [dropna] leaves them: one with a longitude, one with a
    latitude, that [float] rejects. *)
Definition kept_bad_longitude : DroppedRow :=
  mkRow (mkTimestamp 1900 1 15 0) (Qc_of_Z 10) (dec 5 1) "Paris" "France"
    (CStr "48.85N") (CStr "east").
Definition kept_bad_latitude : DroppedRow :=
  mkRow (mkTimestamp 1900 2 20 0) (Qc_of_Z 12) (dec 4 1) "Paris" "France"
    (CStr "4x.85N") (CStr "2.35E").

(** Noon of the last day of 2013, at Reykjavik. *)
Definition last_day_noon : LoadedRow :=
  mkRow (mkTimestamp 2013 12 31 43200000000000) (Qc_of_Z 1) NaN
    "Reykjavik" "Iceland" (dec 6415 2) (dec (-2194) 2).

(** A text made of white space only. *)
Fixpoint is_blank (s : string) : bool :=
  match s with
  | EmptyString => true
  | String c s' => is_space c && is_blank s'
  end.

(** The sample file as [load_data] returns it. *)
Definition sample_loaded : list LoadedRow :=
  match load_data ref_datetime ref_numeric ref_float sample_dir with
  | Ok (df, _) => df
  | Raise _ => []
  end.

(** * Properties *)

(** ** Strings *)

Lemma append_cons (c : ascii) (s u : string) :
  String c s +:+ u = String c (s +:+ u).
Proof. reflexivity. Qed.

Lemma lstrip_snoc (d : string) (c : ascii) :
  is_space c = false →
  lstrip (d +:+ String c EmptyString) = lstrip d +:+ String c EmptyString.
Proof.
  intros Hc. induction d as [|a d IH].
  - change (lstrip (String c EmptyString) = String c EmptyString).
    cbn [lstrip]. by rewrite Hc.
  - rewrite append_cons. cbn [lstrip]. destruct (is_space a); [exact IH|done].
Qed.

Lemma rstrip_snoc (d : string) (c : ascii) :
  is_space c = false →
  rstrip (d +:+ String c EmptyString) = d +:+ String c EmptyString.
Proof.
  intros Hc. induction d as [|a d IH].
  - change (rstrip (String c EmptyString) = String c EmptyString).
    cbn [rstrip]. by rewrite Hc.
  - rewrite append_cons. cbn [rstrip]. rewrite IH.
    destruct d; reflexivity.
Qed.

Lemma strip_snoc (d : string) (c : ascii) :
  is_space c = false →
  strip (d +:+ String c EmptyString) = lstrip d +:+ String c EmptyString.
Proof.
  intros Hc. unfold strip. rewrite lstrip_snoc by done. by apply rstrip_snoc.
Qed.

Lemma str_last_snoc (d : string) (c : ascii) :
  str_last (d +:+ String c EmptyString) = Some c.
Proof.
  induction d as [|a d IH]; [done|].
  rewrite append_cons. cbn [str_last]. rewrite IH. by destruct d.
Qed.

Lemma str_init_snoc (d : string) (c : ascii) :
  str_init (d +:+ String c EmptyString) = d.
Proof.
  induction d as [|a d IH]; [done|].
  rewrite append_cons. cbn [str_init]. rewrite IH. by destruct d.
Qed.

Lemma lstrip_idemp (s : string) : lstrip (lstrip s) = lstrip s.
Proof.
  induction s as [|a s IH]; [done|].
  cbn [lstrip]. destruct (is_space a) eqn:Ha; [done|].
  cbn [lstrip]. by rewrite Ha.
Qed.

Lemma strip_lstrip (s : string) : strip (lstrip s) = strip s.
Proof. unfold strip. by rewrite lstrip_idemp. Qed.

Lemma char_in_NSEW_not_space (c : ascii) :
  char_in c "NSEW" = true → is_space c = false.
Proof.
  cbn. intros H.
  repeat (apply orb_prop in H as [H|H]; [apply Ascii.eqb_eq in H as ->; done|]).
  done.
Qed.

(** ** The coordinate normalizer *)

Lemma fmul_one (v : pyfloat) : fmul v f_one = v.
Proof. destruct v as [q|]; [|done]. cbn. by rewrite Qcmult_1_r. Qed.

Lemma fmul_minus_one (v : pyfloat) : fmul v f_minus_one = fneg v.
Proof.
  destruct v as [q|]; [|done]. cbn. f_equal. ring.
Qed.

Section ToFloatFacts.

Variable py_float : string → option pyfloat.

(** The value with a hemisphere letter at the end: the sign comes from the
    letter, the number from the text before it. *)
Lemma to_float_suffix (d : string) (c : ascii) :
  char_in c "NSEW" = true →
  _to_float py_float (CStr (d +:+ String c EmptyString)) =
    match py_float (lstrip d) with
    | Some v => Ok (if char_in c "SW" then fneg v else v)
    | None => Raise (ValueError_CouldNotConvert (lstrip d))
    end.
Proof.
  intros Hc. unfold _to_float.
  rewrite strip_snoc by by apply char_in_NSEW_not_space.
  rewrite str_last_snoc, Hc, str_init_snoc.
  destruct (py_float (lstrip d)) as [v|]; [|done].
  destruct (char_in c "SW"); by rewrite ?fmul_one, ?fmul_minus_one.
Qed.

(** The value whose stripped text does not end in a hemisphere letter. *)
Lemma to_float_plain (x : string) :
  match str_last (strip x) with
  | Some c => char_in c "NSEW" = false
  | None => True
  end →
  _to_float py_float (CStr x) =
    match py_float (strip x) with
    | Some v => Ok v
    | None => Raise (ValueError_CouldNotConvert (strip x))
    end.
Proof.
  intros Hx. unfold _to_float.
  destruct (str_last (strip x)) as [c|]; [rewrite Hx|];
    destruct (py_float (strip x)); by rewrite ?fmul_one.
Qed.

(** [_to_float] raises nothing but the [ValueError] of [float]. *)
Lemma to_float_raises (x : cell) (e : exn) :
  _to_float py_float x = Raise e → ∃ s, e = ValueError_CouldNotConvert s.
Proof.
  destruct x as [v|x]; [done|]. unfold _to_float.
  destruct (match str_last (strip x) with Some _ => _ | None => _ end) as [m s].
  destruct (py_float s); [done|]. intros [= <-]. eauto.
Qed.

End ToFloatFacts.

(** ** Element-wise column operations *)

Section ApplySeries.

Context {A B : Type} (f : A → result B).

Lemma apply_series_cons_ok (a : A) (l : list A) (m : list B) :
  apply_series f (a :: l) = Ok m ↔
  ∃ b bs, f a = Ok b ∧ apply_series f l = Ok bs ∧ m = b :: bs.
Proof.
  cbn [apply_series]. split.
  - destruct (f a) as [b|e]; [|done]. cbn.
    destruct (apply_series f l) as [bs|e]; [|done]. cbn.
    intros [= <-]. eauto.
  - intros (b & bs & -> & -> & ->). done.
Qed.

Lemma apply_series_total (g : A → B) (l : list A) :
  (∀ a, f a = Ok (g a)) → apply_series f l = Ok (g <$> l).
Proof.
  intros Hf. induction l as [|a l IH]; [done|].
  cbn [apply_series]. rewrite Hf, IH. done.
Qed.

(** An element on which [f] raises makes the whole call raise. *)
Lemma apply_series_raises (l : list A) (a : A) (e : exn) :
  a ∈ l → f a = Raise e → ∃ e', apply_series f l = Raise e'.
Proof.
  intros Hin Ha. induction Hin as [a l|a b l Hin IH]; cbn [apply_series].
  - rewrite Ha. eauto.
  - destruct (IH Ha) as [e' He']. rewrite He'.
    destruct (f b); cbn; eauto.
Qed.

(** The exception of the call is the exception of one element. *)
Lemma apply_series_raise_inv (l : list A) (e : exn) :
  apply_series f l = Raise e → ∃ a, a ∈ l ∧ f a = Raise e.
Proof.
  induction l as [|a l IH]; [done|]. cbn [apply_series].
  destruct (f a) as [b|e'] eqn:Ha; cbn.
  - destruct (apply_series f l) as [bs|e'']; [done|]. cbn.
    intros [= <-]. destruct IH as (a' & ? & ?); [done|].
    exists a'. split; [by right|done].
  - intros [= <-]. exists a. split; [by left|done].
Qed.

End ApplySeries.

Lemma apply_series_elem {A B} (f : A → result B) (l : list A) (m : list B) (a : A) :
  apply_series f l = Ok m → a ∈ l → ∃ b, b ∈ m ∧ f a = Ok b.
Proof.
  revert m. induction l as [|x l IH]; intros m Hm Hin; [by inversion Hin|].
  apply apply_series_cons_ok in Hm as (b & bs & Hb & Hbs & ->).
  inversion Hin; subst.
  - exists b. split; [by left|done].
  - destruct (IH _ Hbs) as (b' & ? & ?); [done|].
    exists b'. split; [by right|done].
Qed.

(** Case analysis on the first [apply_series] over [l] in sight. *)
Ltac case_series l H :=
  match goal with
  | |- context [apply_series ?f l] => destruct (apply_series f l) eqn:H
  | _ : context [apply_series ?f l] |- _ => destruct (apply_series f l) eqn:H
  end.

(** ** [load_data] *)

Section LoadFacts.

Variable to_datetime_scalar : cell → option Timestamp.
Variable to_numeric_scalar : string → option pyfloat.
Variable py_float : string → option pyfloat.

#[local] Abbreviation coerce_fields :=
  (coerce_fields to_datetime_scalar to_numeric_scalar).
#[local] Abbreviation coerce_row :=
  (coerce_row to_datetime_scalar to_numeric_scalar).
#[local] Abbreviation normalize_coordinates := (normalize_coordinates py_float).
#[local] Abbreviation load_data :=
  (load_data to_datetime_scalar to_numeric_scalar py_float).

Lemma pd_to_datetime_coerce (c : cell) :
  pd_to_datetime to_datetime_scalar errors_coerce c =
    Ok (if isna c then None else to_datetime_scalar c).
Proof.
  unfold pd_to_datetime. destruct (isna c); [done|].
  by destruct (to_datetime_scalar c).
Qed.

Lemma pd_to_numeric_coerce (c : cell) :
  pd_to_numeric to_numeric_scalar errors_coerce c =
    Ok (match c with
        | CNum v => v
        | CStr s => default NaN (to_numeric_scalar s)
        end).
Proof.
  destruct c as [v|s]; [done|]. cbn. by destruct (to_numeric_scalar s).
Qed.

Lemma coerce_fields_ok (df : list RawRow) :
  coerce_fields df = Ok (coerce_row <$> df).
Proof.
  unfold coerce_fields, assign.
  erewrite apply_series_total; [|intros r; by rewrite pd_to_datetime_coerce].
  cbn. erewrite apply_series_total; [|intros r; by rewrite pd_to_numeric_coerce].
  cbn. erewrite apply_series_total; [|intros r; by rewrite pd_to_numeric_coerce].
  f_equal. rewrite <- !list_fmap_compose. apply list_fmap_ext.
  intros i [d tm un ci co la lo] _. reflexivity.
Qed.

Lemma normalize_coordinates_raise_inv (df : list DroppedRow) (e : exn) :
  normalize_coordinates df = Raise e → ∃ s, e = ValueError_CouldNotConvert s.
Proof.
  unfold normalize_coordinates, assign. intros He.
  case_series df H1; cbn in He.
  - apply apply_series_raise_inv in He as (r & _ & Hr).
    destruct (_to_float py_float (Longitude r)) eqn:Hf; [done|].
    cbn in Hr. injection Hr as <-. by eapply to_float_raises.
  - injection He as <-.
    apply apply_series_raise_inv in H1 as (r & _ & Hr).
    destruct (_to_float py_float (Latitude r)) eqn:Hf; [done|].
    cbn in Hr. injection Hr as <-. by eapply to_float_raises.
Qed.

(** A coordinate on which [_to_float] raises, in a row that [dropna] kept,
    ends [normalize_coordinates] with an exception. *)
Lemma normalize_coordinates_raises (df : list DroppedRow) (r : DroppedRow) (e : exn) :
  r ∈ df →
  _to_float py_float (Latitude r) = Raise e ∨
  _to_float py_float (Longitude r) = Raise e →
  ∃ e', normalize_coordinates df = Raise e'.
Proof.
  unfold normalize_coordinates, assign. intros Hin Hr.
  case_series df H1; cbn; [|by eauto].
  destruct (apply_series_elem _ _ _ _ H1 Hin) as (r1 & Hin1 & Hr1).
  destruct Hr as [Hr|Hr]; [by rewrite Hr in Hr1|].
  destruct (_to_float py_float (Latitude r)) as [v|]; [|done].
  cbn in Hr1. injection Hr1 as <-.
  eapply apply_series_raises; [exact Hin1|]. cbn. by rewrite Hr.
Qed.

Lemma missing_empty_iff (cols : gset string) :
  expected ∖ cols = ∅ ↔ expected ⊆ cols.
Proof.
  split.
  - intros He x Hx. destruct (decide (x ∈ cols)) as [|Hn]; [done|].
    exfalso. apply (not_elem_of_empty (C:=gset string) x).
    rewrite <- He. by apply elem_of_difference.
  - intros Hsub. apply set_eq. intros x. rewrite elem_of_difference. split.
    + intros [Hx Hn]. destruct Hn. by apply Hsub.
    + intros Hx. by apply not_elem_of_empty in Hx.
Qed.

(** [load_data] once the file is chosen and its header is complete. *)
Lemma load_data_selected dir name df rest :
  sorted_csvs dir = (name, df) :: rest →
  expected ⊆ list_to_set (columns df) →
  load_data dir =
    (df ← normalize_coordinates (dropna (coerce_row <$> rows df));
     Ok (sort_values_dt df, name)).
Proof.
  intros Hsel Hcols. unfold load_data. rewrite Hsel.
  rewrite decide_False by (intros Hne; by apply Hne, missing_empty_iff).
  by rewrite coerce_fields_ok.
Qed.

End LoadFacts.

(** ** The run ends with the exception of [load_data] *)

Section AppFacts.

Variable to_datetime_scalar : cell → option Timestamp.
Variable to_numeric_scalar : string → option pyfloat.
Variable py_float : string → option pyfloat.
Variable TIME_STEP : time_step.
Variable USE_GLOBAL_COLOR_SCALE : bool.

#[local] Abbreviation coerce_row :=
  (coerce_row to_datetime_scalar to_numeric_scalar).
#[local] Abbreviation load_data :=
  (load_data to_datetime_scalar to_numeric_scalar py_float).
#[local] Abbreviation app :=
  (app to_datetime_scalar to_numeric_scalar py_float
     TIME_STEP USE_GLOBAL_COLOR_SCALE).

Lemma app_failed (dir : list (string * DataFrame)) (e : exn) :
  load_data dir = Raise e → app dir = Failed e.
Proof. unfold app. by intros ->. Qed.

Lemma app_done_inv dir a rc :
  app dir = Done (a, rc) →
  ∃ df fname,
    load_data dir = Ok (df, fname) ∧
    a = round_temperatures (aggregate (time_grouping TIME_STEP (clamp df))) ∧
    rc = range_color USE_GLOBAL_COLOR_SCALE a.
Proof.
  unfold app. destruct (load_data dir) as [[df fname]|e]; [|done].
  repeat case_bool_decide; try done. intros [= <- <-]. eauto.
Qed.

(** A row of the chosen file that [dropna] keeps and whose latitude or
    longitude makes [_to_float] raise ends the run with that kind of
    exception: no frame is produced. *)
Lemma app_fails_on_bad_coordinate dir name df rest r r' e :
  sorted_csvs dir = (name, df) :: rest →
  expected ⊆ list_to_set (columns df) →
  r ∈ rows df →
  dropna_row (coerce_row r) = Some r' →
  _to_float py_float (Latitude r) = Raise e ∨
  _to_float py_float (Longitude r) = Raise e →
  ∃ s, app dir = Failed (ValueError_CouldNotConvert s).
Proof.
  intros Hsel Hcols Hin Hkeep Hbad.
  assert (r' ∈ dropna (coerce_row <$> rows df)) as Hin'.
  { apply list_elem_of_omap. exists (coerce_row r).
    split; [by apply list_elem_of_fmap_2|done]. }
  assert (Latitude r' = Latitude r ∧ Longitude r' = Longitude r) as [Hla Hlo].
  { unfold dropna_row in Hkeep. repeat case_match; try done.
    by injection Hkeep as <-. }
  rewrite <- Hla, <- Hlo in Hbad.
  destruct (normalize_coordinates_raises py_float _ _ _ Hin' Hbad) as [e' He'].
  destruct (normalize_coordinates_raise_inv _ _ _ He') as [s ->].
  exists s. apply app_failed.
  rewrite (load_data_selected _ _ _ _ _ _ _ Hsel Hcols), He'. done.
Qed.

End AppFacts.

(** ** The order of the grouping keys *)

#[global] Instance string_compare_total : TotalCompare String.compare.
Proof.
  split.
  - apply String.compare_eq_iff.
  - intros s. induction s as [|c s IH]; [done|].
    cbn. unfold Ascii.compare. by rewrite N.compare_refl.
  - apply String.compare_antisym.
  - intros s1. induction s1 as [|c1 s1 IH]; intros [|c2 s2] [|c3 s3]; cbn; try done.
    destruct (Ascii.compare c1 c2) eqn:H12; try done;
      destruct (Ascii.compare c2 c3) eqn:H23; try done; intros ? ?.
    + apply Ascii.compare_eq_iff in H12 as ->. rewrite H23. by eapply IH.
    + apply Ascii.compare_eq_iff in H12 as ->. by rewrite H23.
    + apply Ascii.compare_eq_iff in H23 as <-. by rewrite H12.
    + unfold Ascii.compare in *.
      rewrite N.compare_lt_iff in H12, H23.
      assert (N_of_ascii c1 < N_of_ascii c3)%N as H13 by lia.
      apply N.compare_lt_iff in H13. by rewrite H13.
Qed.

#[global] Instance lex_compare_total {A B : Type}
    (ca : A → A → comparison) (cb : B → B → comparison)
    `{!TotalCompare ca, !TotalCompare cb} : TotalCompare (lex_compare ca cb).
Proof.
  split; unfold lex_compare.
  - intros [a1 b1] [a2 b2]; cbn. destruct (ca a1 a2) eqn:Ha; try done.
    intros Hb. apply cmp_eq in Ha as ->. by apply cmp_eq in Hb as ->.
  - intros [a b]; cbn. by rewrite !cmp_refl.
  - intros [a1 b1] [a2 b2]; cbn. rewrite (cmp_antisym (cmp:=ca) a1 a2).
    destruct (ca a2 a1); cbn; try done. apply cmp_antisym.
  - intros [a1 b1] [a2 b2] [a3 b3]; cbn.
    destruct (ca a1 a2) eqn:H12; try done;
      destruct (ca a2 a3) eqn:H23; try done; intros ? ?.
    + apply cmp_eq in H12 as ->. rewrite H23. by eapply cmp_trans.
    + apply cmp_eq in H12 as ->. by rewrite H23.
    + apply cmp_eq in H23 as <-. by rewrite H12.
    + by rewrite (cmp_trans _ _ _ H12 H23).
Qed.

#[global] Instance key_compare_total : TotalCompare key_compare.
Proof. unfold key_compare. apply _. Qed.

Lemma cmp_gt_lt `{TotalCompare A cmp} (a b : A) : cmp a b = Gt → cmp b a = Lt.
Proof. rewrite (cmp_antisym a b). by destruct (cmp b a). Qed.

Lemma cmp_lt_irrefl `{TotalCompare A cmp} (a : A) : cmp a a ≠ Lt.
Proof. by rewrite cmp_refl. Qed.

(** ** [groupby] *)

(** What holds of the empty table and is kept by every insertion of a row
    of the frame holds of the table of groups. *)
Lemma groupby_invariant (I : list (key * Group) → Prop) (df : list Binned) :
  I [] →
  (∀ r gs, r ∈ df → I gs → I (group_insert r gs)) →
  I (groupby df).
Proof.
  unfold groupby. generalize (@nil (key * Group)).
  induction df as [|r df IH]; intros acc Hacc Hstep; cbn; [done|].
  apply IH.
  - apply Hstep; [by left|done].
  - intros r' gs Hin. apply Hstep. by right.
Qed.

#[global] Instance key_lt_trans : Transitive key_lt.
Proof. intros a b c. unfold key_lt. apply cmp_trans. Qed.

Lemma group_insert_hd (r : Binned) (gs : list (key * Group)) (x : key * Group) :
  key_compare x.1 (row_key r) = Lt →
  HdRel key_lt x gs → HdRel key_lt x (group_insert r gs).
Proof.
  intros Hx Hhd. destruct gs as [|[k g] gs]; cbn [group_insert].
  - by constructor.
  - inversion_clear Hhd. destruct (key_compare (row_key r) k); by constructor.
Qed.

Lemma group_insert_sorted (r : Binned) (gs : list (key * Group)) :
  Sorted key_lt gs → Sorted key_lt (group_insert r gs).
Proof.
  induction 1 as [|[k g] gs Hs IH Hhd]; cbn [group_insert].
  - repeat constructor.
  - destruct (key_compare (row_key r) k) eqn:Hc.
    + constructor; [done|]. destruct Hhd; constructor. done.
    + repeat constructor; done.
    + constructor; [done|]. apply group_insert_hd; [|done].
      by apply cmp_gt_lt.
Qed.

(** The groups come in strictly ascending key order. *)
Lemma groupby_sorted (df : list Binned) : StronglySorted key_lt (groupby df).
Proof.
  apply Sorted_StronglySorted; [apply _|].
  apply groupby_invariant; [constructor|].
  intros r gs _. apply group_insert_sorted.
Qed.

Lemma group_insert_Forall (P : key * Group → Prop) (r : Binned)
    (gs : list (key * Group)) :
  P (row_key r, group_add r group_empty) →
  (∀ g, P (row_key r, g) → P (row_key r, group_add r g)) →
  Forall P gs → Forall P (group_insert r gs).
Proof.
  intros Hnew Hadd. induction 1 as [|[k g] gs Hk Hgs IH]; cbn [group_insert].
  - by repeat constructor.
  - destruct (key_compare (row_key r) k) eqn:Hc.
    + apply cmp_eq in Hc as <-. constructor; [by apply Hadd|done].
    + by repeat constructor.
    + by constructor.
Qed.

(** Every group has the key of a row of the frame. *)
Lemma groupby_keys (df : list Binned) :
  Forall (λ kg, ∃ r, r ∈ df ∧ row_key r = kg.1) (groupby df).
Proof.
  apply groupby_invariant; [constructor|].
  intros r gs Hin Hgs. apply group_insert_Forall; cbn; eauto.
Qed.

(** ** Labels of periods within 1743-2013 *)

#[global] Instance Timestamp_eq_dec : EqDecision Timestamp.
Proof. solve_decision. Defined.

Lemma compare_append (s1 s2 u1 u2 : string) :
  String.length s1 = String.length s2 →
  String.compare (s1 +:+ u1) (s2 +:+ u2) =
    match String.compare s1 s2 with
    | Eq => String.compare u1 u2
    | c => c
    end.
Proof.
  revert s2. induction s1 as [|c1 s1 IH]; intros [|c2 s2] Hlen; try done.
  rewrite !append_cons. cbn [String.compare].
  destruct (Ascii.compare c1 c2); [|done..].
  apply IH. by injection Hlen.
Qed.

Lemma year_labels :
  Forall (λ y1,
    String.length (pretty y1) = 4%nat ∧
    int_of_digits (pretty y1) = Some y1 ∧
    Forall (λ y2, String.compare (pretty y1) (pretty y2) = Z.compare y1 y2)
      clamp_years) clamp_years.
Proof. apply (bool_decide_unpack _). vm_compute. exact I. Qed.

Lemma month_labels :
  Forall (λ m1,
    String.length (pad2 m1) = 2%nat ∧
    int_of_digits (pad2 m1) = Some m1 ∧
    Forall (λ m2, String.compare (pad2 m1) (pad2 m2) = Z.compare m1 m2)
      calendar_months) calendar_months.
Proof. apply (bool_decide_unpack _). vm_compute. exact I. Qed.

Lemma period_labels_read :
  Forall (λ y,
    period_of_label Yearly (period_label Yearly (mkTimestamp y 1 1 0)) =
      Some (mkTimestamp y 1 1 0) ∧
    Forall (λ m,
      period_of_label Monthly (period_label Monthly (mkTimestamp y m 1 0)) =
        Some (mkTimestamp y m 1 0)) calendar_months) clamp_years.
Proof. apply (bool_decide_unpack _). vm_compute. exact I. Qed.

Lemma elem_of_clamp_years (y : Z) : 1743 ≤ y ≤ 2013 → y ∈ clamp_years.
Proof. intros ?. apply elem_of_seqZ. lia. Qed.

Lemma elem_of_calendar_months (m : Z) : 1 ≤ m ≤ 12 → m ∈ calendar_months.
Proof. intros ?. apply elem_of_seqZ. lia. Qed.

(** Within the clamp interval the labels are ordered as the periods are. *)
Lemma label_compare (step : time_step) (p1 p2 : Timestamp) :
  in_period step p1 → in_period step p2 →
  String.compare (period_label step p1) (period_label step p2) = ts_compare p1 p2.
Proof.
  destruct p1 as [y1 m1 d1 n1], p2 as [y2 m2 d2 n2].
  intros (Hy1 & Hd1 & Hn1 & Hm1) (Hy2 & Hd2 & Hn2 & Hm2); cbn in *; subst.
  pose proof year_labels as Hy. rewrite list.Forall_forall in Hy.
  destruct (Hy y1 (elem_of_clamp_years _ Hy1)) as (Hlen1 & _ & Hc).
  destruct (Hy y2 (elem_of_clamp_years _ Hy2)) as (Hlen2 & _ & _).
  rewrite list.Forall_forall in Hc. specialize (Hc y2 (elem_of_clamp_years _ Hy2)).
  unfold ts_compare; cbn. destruct step; cbn.
  - subst. rewrite Hc. by destruct (y1 ?= y2).
  - rewrite compare_append by congruence. rewrite Hc.
    destruct (y1 ?= y2); [|done..].
    rewrite (compare_append "-" "-") by done. cbn [String.compare].
    change (Ascii.compare "-" "-") with Eq. cbn match.
    pose proof month_labels as Hm. rewrite list.Forall_forall in Hm.
    destruct (Hm m1 (elem_of_calendar_months _ Hm1)) as (_ & _ & Hcm).
    rewrite list.Forall_forall in Hcm.
    rewrite (Hcm m2 (elem_of_calendar_months _ Hm2)).
    by destruct (m1 ?= m2).
Qed.

(** The label of such a period reads back as the period. *)
Lemma label_read (step : time_step) (p : Timestamp) :
  in_period step p → period_of_label step (period_label step p) = Some p.
Proof.
  destruct p as [y m d n]. intros (Hy & Hd & Hn & Hm); cbn in *; subst.
  pose proof period_labels_read as Hr. rewrite list.Forall_forall in Hr.
  destruct (Hr y (elem_of_clamp_years _ Hy)) as [Hyr Hmo].
  destruct step.
  - by subst.
  - rewrite list.Forall_forall in Hmo. apply Hmo. by apply elem_of_calendar_months.
Qed.

(** ** The clamp *)

Lemma ts_leb_year (a b : Timestamp) : ts_leb a b → year a ≤ year b.
Proof.
  unfold ts_leb, ts_compare.
  destruct (Z.compare_spec (year a) (year b)); [lia|lia|done].
Qed.

Lemma elem_of_clamp (df : list LoadedRow) (r : LoadedRow) :
  r ∈ clamp df ↔ r ∈ df ∧ ts_leb clamp_lo (dt r) ∧ ts_leb (dt r) clamp_hi.
Proof.
  unfold clamp. rewrite list_elem_of_filter, andb_True. tauto.
Qed.

Lemma clamp_year (df : list LoadedRow) (r : LoadedRow) :
  r ∈ clamp df → 1743 ≤ year (dt r) ≤ 2013.
Proof.
  intros (_ & Hlo & Hhi)%elem_of_clamp.
  apply ts_leb_year in Hlo, Hhi. cbn in *. lia.
Qed.

(** The rows that enter [groupby] carry the label of a period of the clamp
    interval, provided their months are months. *)
Lemma time_grouping_in_period (step : time_step) (df : list LoadedRow) (b : Binned) :
  (step = Monthly → ∀ r, r ∈ df → 1 ≤ month (dt r) ≤ 12) →
  b ∈ time_grouping step (clamp df) →
  t_label b = period_label step (t b) ∧ in_period step (t b).
Proof.
  intros Hmonth (r & -> & Hr)%list_elem_of_fmap. cbn. split; [done|].
  pose proof (clamp_year _ _ Hr) as Hy.
  apply elem_of_clamp in Hr as (Hr & _).
  unfold in_period. destruct step; cbn [period_start year month day nanos].
  - done.
  - split; [done|]. do 2 (split; [done|]). by apply Hmonth.
Qed.

(** ** The aggregated frame *)

Lemma agg_key_round_aggregate (df : list Binned) :
  agg_key <$> round_temperatures (aggregate df) = fst <$> groupby df.
Proof.
  unfold round_temperatures, aggregate. rewrite <- !list_fmap_compose.
  apply list_fmap_ext. intros i [[[l c] k] g] _. done.
Qed.

Lemma StronglySorted_NoDup_keys (gs : list (key * Group)) :
  StronglySorted key_lt gs → NoDup (fst <$> gs).
Proof.
  induction 1 as [|x gs Hs IH Hall]; cbn; constructor; [|done].
  intros (y & Hxy & Hy)%list_elem_of_fmap.
  rewrite list.Forall_forall in Hall. specialize (Hall y Hy).
  unfold key_lt in Hall. rewrite Hxy in Hall. by apply cmp_lt_irrefl in Hall.
Qed.

Lemma StronglySorted_Forall_strengthen {A} (R : relation A) (P : A → Prop) l :
  StronglySorted R l → Forall P l →
  StronglySorted (λ x y, R x y ∧ P x ∧ P y) l.
Proof.
  induction 1 as [|x l Hs IH Hall]; intros HP; constructor.
  - apply IH. by inversion HP.
  - inversion_clear HP as [|?? Hx Hl].
    rewrite list.Forall_forall in Hall, Hl |- *. naive_solver.
Qed.

Lemma apply_series_elem_inv {A B} (f : A → result B) (l : list A) (m : list B) (b : B) :
  apply_series f l = Ok m → b ∈ m → ∃ a, a ∈ l ∧ f a = Ok b.
Proof.
  revert m. induction l as [|x l IH]; intros m Hm Hin.
  - injection Hm as <-. by inversion Hin.
  - apply apply_series_cons_ok in Hm as (b' & bs & Hb & Hbs & ->).
    inversion Hin; subst.
    + exists x. split; [by left|done].
    + destruct (IH _ Hbs) as (a & ? & ?); [done|].
      exists a. split; [by right|done].
Qed.

(** ** What [load_data] returns *)

Section LoadedFacts.

Variable to_datetime_scalar : cell → option Timestamp.
Variable to_numeric_scalar : string → option pyfloat.
Variable py_float : string → option pyfloat.

#[local] Abbreviation coerce_row :=
  (coerce_row to_datetime_scalar to_numeric_scalar).
#[local] Abbreviation normalize_coordinates := (normalize_coordinates py_float).
#[local] Abbreviation load_data :=
  (load_data to_datetime_scalar to_numeric_scalar py_float).

Lemma load_data_ok_inv dir l fname :
  load_data dir = Ok (l, fname) →
  ∃ df rest m,
    sorted_csvs dir = (fname, df) :: rest ∧
    expected ⊆ list_to_set (columns df) ∧
    normalize_coordinates (dropna (coerce_row <$> rows df)) = Ok m ∧
    l = sort_values_dt m.
Proof.
  intros Hload. unfold load_data in Hload.
  destruct (sorted_csvs dir) as [|[name df] rest] eqn:Hsel; [done|].
  case_decide as Hmiss; [done|].
  assert (expected ⊆ list_to_set (columns df)) as Hcols.
  { apply missing_empty_iff. by destruct (decide (expected ∖ list_to_set (columns df) = ∅)). }
  rewrite coerce_fields_ok in Hload. cbn in Hload.
  destruct (normalize_coordinates _) as [m|] eqn:Hm; [|done].
  cbn in Hload. injection Hload as <- <-. eauto 10.
Qed.

(** Every date of the loaded frame is a date [pd.to_datetime] produced. *)
Lemma load_data_dt dir l fname (r : LoadedRow) :
  load_data dir = Ok (l, fname) → r ∈ l →
  ∃ c, to_datetime_scalar c = Some (dt r).
Proof.
  intros (df & rest & m & _ & _ & Hm & ->)%load_data_ok_inv Hr.
  unfold sort_values_dt in Hr. rewrite merge_sort_Permutation in Hr.
  unfold normalize_coordinates, assign in Hm.
  case_series (dropna (coerce_row <$> rows df)) H1; [|done]. cbn in Hm.
  apply (apply_series_elem_inv _ _ _ _ Hm) in Hr as (r1 & Hr1 & Hf1).
  apply (apply_series_elem_inv _ _ _ _ H1) in Hr1 as (r0 & Hr0 & Hf0).
  destruct (_to_float py_float (Longitude r1)); [|done].
  destruct (_to_float py_float (Latitude r0)); [|done].
  cbn in Hf0, Hf1. injection Hf0 as <-. injection Hf1 as <-. cbn.
  apply list_elem_of_omap in Hr0 as (rc & Hrc & Hdrop).
  apply list_elem_of_fmap in Hrc as (raw & -> & _).
  unfold dropna_row in Hdrop. repeat case_match; try done.
  injection Hdrop as <-. cbn.
  match goal with H : dt _ = Some _ |- _ => cbn in H end.
  exists (dt raw). by destruct (isna (dt raw)).
Qed.

End LoadedFacts.

(** * The claims *)

(** ** C1 *)

Lemma ref_float_lstrip (s : string) : ref_float (lstrip s) = ref_float s.
Proof. unfold ref_float, decimal_literal. by rewrite strip_lstrip. Qed.

(** C1.  The coordinate normalizer reads a hemisphere letter as a sign: for
    a text [d] that [float] reads as [v], ["{d}N"] and ["{d}E"] give [v],
    ["{d}S"] and ["{d}W"] give [-v]; a value that is already a number is
    returned as it is.  [float] ignores leading white space, as Python's
    does. *)
Theorem to_float_hemisphere_sign (py_float : string → option pyfloat)
    (d : string) (v : pyfloat) :
  (∀ s, py_float (lstrip s) = py_float s) →
  py_float d = Some v →
  _to_float py_float (CStr (d +:+ "N")) = Ok v ∧
  _to_float py_float (CStr (d +:+ "S")) = Ok (fneg v) ∧
  _to_float py_float (CStr (d +:+ "E")) = Ok v ∧
  _to_float py_float (CStr (d +:+ "W")) = Ok (fneg v) ∧
  ∀ x : pyfloat, _to_float py_float (CNum x) = Ok x.
Proof.
  intros Hws Hd.
  repeat split; try (rewrite to_float_suffix by done; by rewrite Hws, Hd).
Qed.

Lemma to_float_hemisphere_sign_witness :
  ∃ v,
    (∀ s, ref_float (lstrip s) = ref_float s) ∧
    ref_float "48.85" = Some v ∧
    _to_float ref_float (CStr "48.85N") = Ok v ∧
    _to_float ref_float (CStr "48.85S") = Ok (fneg v) ∧
    _to_float ref_float (CStr "48.85E") = Ok v ∧
    _to_float ref_float (CStr "48.85W") = Ok (fneg v) ∧
    ∀ x : pyfloat, _to_float ref_float (CNum x) = Ok x.
Proof.
  eexists. split; [exact ref_float_lstrip|].
  split; [vm_compute; reflexivity|].
  apply (to_float_hemisphere_sign ref_float "48.85" _ ref_float_lstrip).
  vm_compute; reflexivity.
Defined.

(** ** C2 *)

Section Claims.

Variable to_datetime_scalar : cell → option Timestamp.
Variable to_numeric_scalar : string → option pyfloat.
Variable py_float : string → option pyfloat.

#[local] Abbreviation coerce_fields :=
  (coerce_fields to_datetime_scalar to_numeric_scalar).
#[local] Abbreviation coerce_row :=
  (coerce_row to_datetime_scalar to_numeric_scalar).
#[local] Abbreviation load_data :=
  (load_data to_datetime_scalar to_numeric_scalar py_float).
#[local] Abbreviation app :=
  (app to_datetime_scalar to_numeric_scalar py_float).

(** C2, as the code has it.  Every row that passes the clamp of line 69 has
    its [dt] between 1743-01-01 and 2013-12-31, both included, so its year
    is one of 1743..2013.  The coordinates are not checked against a range
    anywhere. *)
Theorem clamp_keeps_dates_in_range dir df fname (r : LoadedRow) :
  load_data dir = Ok (df, fname) →
  r ∈ clamp df →
  ts_compare clamp_lo (dt r) ≠ Gt ∧ ts_compare (dt r) clamp_hi ≠ Gt ∧
  1743 ≤ year (dt r) ≤ 2013.
Proof.
  intros _ Hr. pose proof (clamp_year _ _ Hr) as Hy.
  apply elem_of_clamp in Hr as (_ & Hlo & Hhi).
  unfold ts_leb in Hlo, Hhi.
  repeat split; try lia.
  - by destruct (ts_compare clamp_lo (dt r)).
  - by destruct (ts_compare (dt r) clamp_hi).
Qed.

End Claims.

Lemma clamp_keeps_dates_in_range_witness :
  ∃ df fname r,
    load_data ref_datetime ref_numeric ref_float sample_dir = Ok (df, fname) ∧
    r ∈ clamp df ∧
    ts_compare clamp_lo (dt r) ≠ Gt ∧ ts_compare (dt r) clamp_hi ≠ Gt ∧
    1743 ≤ year (dt r) ≤ 2013.
Proof.
  eexists _, _, _.
  match goal with
  | |- ?A ∧ ?B ∧ _ =>
      assert A as Hload by (vm_compute; reflexivity);
      assert B as Hr by (vm_compute; apply list_elem_of_here)
  end.
  split; [exact Hload|]. split; [exact Hr|].
  exact (clamp_keeps_dates_in_range _ _ _ _ _ _ _ Hload Hr).
Defined.

(** A row with latitude 95 and longitude 200 passes the clamp: the claim's
    bounds on the coordinates do not hold of the rows that are aggregated. *)
Lemma coordinates_off_the_globe_survive :
  ∃ df fname r lat lon,
    load_data ref_datetime ref_numeric ref_float off_the_globe_dir
      = Ok (df, fname) ∧
    r ∈ clamp df ∧
    Latitude r = Some lat ∧ Longitude r = Some lon ∧
    ¬ (lat ≤ Qc_of_Z 90)%Qc ∧ ¬ (lon ≤ Qc_of_Z 180)%Qc.
Proof.
  eexists _, _, _, _, _.
  split; [vm_compute; reflexivity|].
  split; [vm_compute; apply list_elem_of_here|].
  split; [vm_compute; reflexivity|].
  split; [vm_compute; reflexivity|].
  split; apply Qclt_not_le; vm_compute; reflexivity.
Qed.

(** ** C3 *)

Lemma ref_datetime_month (c : cell) (p : Timestamp) :
  ref_datetime c = Some p → 1 ≤ month p ≤ 12.
Proof.
  destruct c as [|s]; [done|]. cbn. unfold iso_date.
  repeat case_match; try done. intros [= <-]. cbn.
  match goal with H : bool_decide _ = true |- _ =>
    apply bool_decide_eq_true in H end. lia.
Qed.

Section Claims3.

Variable to_datetime_scalar : cell → option Timestamp.
Variable to_numeric_scalar : string → option pyfloat.
Variable py_float : string → option pyfloat.

#[local] Abbreviation load_data :=
  (load_data to_datetime_scalar to_numeric_scalar py_float).
#[local] Abbreviation app :=
  (app to_datetime_scalar to_numeric_scalar py_float).

(** C3, as the code has it.  The aggregated frame is in ascending order of
    period and, within a period, of city.  The periods are read from the
    labels; for monthly labels the months of the parsed dates are taken to
    be months.  Nothing is said of the means, which depend on the order of
    the rows. *)
Theorem aggregated_output_sorted
    (step : time_step) (use_global : bool) dir a rc :
  (step = Monthly →
   ∀ c p, to_datetime_scalar c = Some p → 1 ≤ month p ≤ 12) →
  app step use_global dir = Done (a, rc) →
  StronglySorted (chronological_then_city step) a.
Proof.
  intros Hmonth Happ.
  apply app_done_inv in Happ as (l & fname & Hload & -> & _).
  set (binned := time_grouping step (clamp l)).
  assert (Forall (λ kg : key * Group,
            ∃ p, kg.1.1.1 = period_label step p ∧ in_period step p)
            (groupby binned)) as Hlabels.
  { eapply list.Forall_impl; [apply groupby_keys|].
    intros kg (b & Hb & <-). exists (t b).
    eapply time_grouping_in_period; [|exact Hb].
    intros Hstep r Hr.
    destruct (load_data_dt _ _ _ _ _ _ _ Hload Hr) as [c Hc]. by eapply Hmonth. }
  pose proof (StronglySorted_Forall_strengthen _ _ _
                (groupby_sorted binned) Hlabels) as Hs.
  unfold round_temperatures, aggregate. rewrite <- list_fmap_compose.
  eapply StronglySorted_fmap; [|exact Hs].
  intros [[[l1 c1] k1] g1] [[[l2 c2] k2] g2]
    (Hlt & (p1 & Hl1 & Hp1) & (p2 & Hl2 & Hp2)); cbn in *; subst l1 l2.
  unfold chronological_then_city; cbn.
  rewrite !label_read by done.
  unfold key_lt, key_compare, lex_compare in Hlt; cbn in Hlt.
  destruct (String.compare (period_label step p1) (period_label step p2))
    eqn:Hc; [|left|done].
  - right. split.
    + apply cmp_eq in Hc. apply (f_equal (period_of_label step)) in Hc.
      rewrite !label_read in Hc by done. by injection Hc.
    + unfold String.le, String.leb. by destruct (String.compare c1 c2).
  - by rewrite label_compare in Hc.
Qed.

End Claims3.

Lemma aggregated_output_sorted_witness :
  ∃ a rc,
    app ref_datetime ref_numeric ref_float Monthly true sample_dir = Done (a, rc) ∧
    StronglySorted (chronological_then_city Monthly) a.
Proof.
  eexists _, _.
  match goal with
  | |- ?A ∧ _ => assert A as Happ by (vm_compute; reflexivity)
  end.
  split; [exact Happ|].
  exact (aggregated_output_sorted ref_datetime ref_numeric ref_float
           Monthly true sample_dir _ _
           (λ _ c p H, ref_datetime_month c p H) Happ).
Defined.

(** C3, where it fails.  Three readings of one day at Paris, in two
    orders.  The dates are equal, so each order is one in which the sort of
    line 58 can leave the rows; they fall in one group, whose mean is the
    sum in row order over 3.  From 36.5, 17.55, -39.5 the sum is
    14.549999999999997 and the mean rounds to 4.8; from 36.5, -39.5, 17.55
    it is 14.55 and the mean rounds to 4.9.  The compensated sum that
    pandas keeps gives the same two values. *)
Lemma row_order_changes_the_means :
  Binary64.same_day ≡ₚ Binary64.same_day_reordered ∧
  dt <$> Binary64.same_day = dt <$> Binary64.same_day_reordered ∧
  ∃ a b,
    Binary64.app Yearly true true Binary64.same_day =
      Done ([a], Some (Binary64.dec 48 1, Binary64.dec 48 1)) ∧
    Binary64.app Yearly true false Binary64.same_day =
      Done ([a], Some (Binary64.dec 48 1, Binary64.dec 48 1)) ∧
    Binary64.app Yearly true true Binary64.same_day_reordered =
      Done ([b], Some (Binary64.dec 49 1, Binary64.dec 49 1)) ∧
    Binary64.app Yearly true false Binary64.same_day_reordered =
      Done ([b], Some (Binary64.dec 49 1, Binary64.dec 49 1)) ∧
    Binary64.agg.AverageTemperature a = Binary64.dec 48 1 ∧
    Binary64.agg.AverageTemperature b = Binary64.dec 49 1 ∧
    PrimFloat.ltb (Binary64.agg.AverageTemperature a)
      (Binary64.agg.AverageTemperature b) = true.
Proof.
  split; [apply perm_skip, perm_swap|].
  split; [reflexivity|].
  eexists _, _.
  split; [vm_compute; reflexivity|].
  split; [vm_compute; reflexivity|].
  split; [vm_compute; reflexivity|].
  split; [vm_compute; reflexivity|].
  split; [vm_compute; reflexivity|].
  split; vm_compute; reflexivity.
Qed.

(** ** C4 *)

Section Claims4.

Variable to_datetime_scalar : cell → option Timestamp.
Variable to_numeric_scalar : string → option pyfloat.
Variable py_float : string → option pyfloat.

#[local] Abbreviation app :=
  (app to_datetime_scalar to_numeric_scalar py_float).

(** C4.  No two rows of the aggregated frame have the same
    [(t_label, City, Country)]. *)
Theorem aggregated_keys_unique (step : time_step) (use_global : bool) dir a rc :
  app step use_global dir = Done (a, rc) →
  NoDup (agg_key <$> a).
Proof.
  intros (l & fname & _ & -> & _)%app_done_inv.
  rewrite agg_key_round_aggregate.
  apply StronglySorted_NoDup_keys, groupby_sorted.
Qed.

End Claims4.

Lemma aggregated_keys_unique_witness :
  ∃ a rc,
    app ref_datetime ref_numeric ref_float Yearly true sample_dir = Done (a, rc) ∧
    NoDup (agg_key <$> a).
Proof.
  eexists _, _.
  match goal with
  | |- ?A ∧ _ => assert A as Happ by (vm_compute; reflexivity)
  end.
  split; [exact Happ|].
  exact (aggregated_keys_unique _ _ _ _ _ _ _ _ Happ).
Defined.

(** ** C8 *)

(** *** The order of floats

    [<=] on binary64 values is read through the specification of the
    primitive floats: away from NaN it is a total preorder. *)

Section FloatOrder.
Import SpecFloat FloatOps FloatAxioms PrimFloat.

Lemma SFcompare_refl (a : spec_float) : a ≠ S754_nan → SFcompare a a = Some Eq.
Proof.
  destruct a as [s|s| |s m e]; intros Ha; try done; cbn.
  - by destruct s.
  - rewrite Z.compare_refl.
    change (Pos.compare_cont Eq m m) with (Pos.compare m m).
    rewrite Pos.compare_refl. by destruct s.
Qed.

Ltac case_float_compares :=
  repeat match goal with
  | H : context [Pos.compare_cont Eq ?x ?y] |- _ =>
      change (Pos.compare_cont Eq x y) with (Pos.compare x y) in H
  | |- context [Pos.compare_cont Eq ?x ?y] =>
      change (Pos.compare_cont Eq x y) with (Pos.compare x y)
  | H : context [Z.compare ?x ?y] |- _ => destruct (Z.compare_spec x y)
  | |- context [Z.compare ?x ?y] => destruct (Z.compare_spec x y)
  | H : context [Pos.compare ?x ?y] |- _ => destruct (Pos.compare_spec x y)
  | |- context [Pos.compare ?x ?y] => destruct (Pos.compare_spec x y)
  end.

Lemma SFleb_total (a b : spec_float) :
  a ≠ S754_nan → b ≠ S754_nan → SFleb a b = false → SFleb b a = true.
Proof.
  unfold SFleb.
  destruct a as [sa|sa| |sa ma ea], b as [sb|sb| |sb mb eb];
    intros Ha Hb; try done; cbn;
    repeat match goal with s : bool |- _ => destruct s end; cbn; try done;
    case_float_compares; cbn; try done; lia.
Qed.

Lemma SFleb_trans (a b c : spec_float) :
  SFleb a b = true → SFleb b c = true → SFleb a c = true.
Proof.
  unfold SFleb.
  destruct a as [sa|sa| |sa ma ea], b as [sb|sb| |sb mb eb],
    c as [sc|sc| |sc mc ec]; cbn; try done;
    repeat match goal with s : bool |- _ => destruct s end; cbn; try done;
    case_float_compares; cbn; try done; lia.
Qed.

Lemma is_nan_Prim2SF (x : float) : is_nan x = false ↔ Prim2SF x ≠ S754_nan.
Proof.
  unfold is_nan. rewrite eqb_spec, negb_false_iff. unfold SFeqb. split.
  - intros H Hn. rewrite Hn in H. done.
  - intros H. by rewrite SFcompare_refl.
Qed.

Lemma float_leb_refl (x : float) : is_nan x = false → leb x x = true.
Proof.
  intros H%is_nan_Prim2SF. rewrite leb_spec. unfold SFleb.
  by rewrite SFcompare_refl.
Qed.

Lemma float_leb_total (x y : float) :
  is_nan x = false → is_nan y = false → leb x y = false → leb y x = true.
Proof.
  intros Hx%is_nan_Prim2SF Hy%is_nan_Prim2SF. rewrite !leb_spec.
  by apply SFleb_total.
Qed.

Lemma float_leb_trans (x y z : float) :
  leb x y = true → leb y z = true → leb x z = true.
Proof. rewrite !leb_spec. apply SFleb_trans. Qed.

(** What [Series.min()] returns: NaN when every value is NaN; otherwise a
    value of the series that is not NaN and is not above any other. *)
Lemma series_min_spec (l : list float) :
  (Forall (λ x, is_nan x = true) l ∧ Binary64.series_min l = nan) ∨
  (is_nan (Binary64.series_min l) = false ∧ Binary64.series_min l ∈ l ∧
   ∀ x, x ∈ l → is_nan x = false → leb (Binary64.series_min l) x = true).
Proof.
  induction l as [|y l IH]; [by left|].
  cbn [Binary64.series_min foldr]. fold (Binary64.series_min l).
  unfold Binary64.fmin.
  destruct (is_nan y) eqn:Hy.
  - destruct IH as [[Hall Hm]|(Hm & Hin & Hle)]; [left|right].
    + split; [by constructor|done].
    + split; [done|]. split; [by right|].
      intros x [->|Hx]%elem_of_cons Hnx; [congruence|by apply Hle].
  - right. destruct IH as [[Hall ->]|(Hm & Hin & Hle)].
    + cbn. split; [done|]. split; [by left|].
      intros x [->|Hx]%elem_of_cons Hnx; [by apply float_leb_refl|].
      rewrite list.Forall_forall in Hall. specialize (Hall _ Hx). congruence.
    + rewrite Hm. destruct (leb y (Binary64.series_min l)) eqn:Hc.
      * split; [done|]. split; [by left|].
        intros x [->|Hx]%elem_of_cons Hnx; [by apply float_leb_refl|].
        eapply float_leb_trans; [exact Hc|by apply Hle].
      * split; [done|]. split; [by right|].
        intros x [->|Hx]%elem_of_cons Hnx;
          [by apply float_leb_total|by apply Hle].
Qed.

(** And [Series.max()]: NaN, or a value that is not below any other. *)
Lemma series_max_spec (l : list float) :
  (Forall (λ x, is_nan x = true) l ∧ Binary64.series_max l = nan) ∨
  (is_nan (Binary64.series_max l) = false ∧ Binary64.series_max l ∈ l ∧
   ∀ x, x ∈ l → is_nan x = false → leb x (Binary64.series_max l) = true).
Proof.
  induction l as [|y l IH]; [by left|].
  cbn [Binary64.series_max foldr]. fold (Binary64.series_max l).
  unfold Binary64.fmax.
  destruct (is_nan y) eqn:Hy.
  - destruct IH as [[Hall Hm]|(Hm & Hin & Hle)]; [left|right].
    + split; [by constructor|done].
    + split; [done|]. split; [by right|].
      intros x [->|Hx]%elem_of_cons Hnx; [congruence|by apply Hle].
  - right. destruct IH as [[Hall ->]|(Hm & Hin & Hle)].
    + cbn. split; [done|]. split; [by left|].
      intros x [->|Hx]%elem_of_cons Hnx; [by apply float_leb_refl|].
      rewrite list.Forall_forall in Hall. specialize (Hall _ Hx). congruence.
    + rewrite Hm. destruct (leb y (Binary64.series_max l)) eqn:Hc.
      * split; [done|]. split; [by right|].
        intros x [->|Hx]%elem_of_cons Hnx; [done|by apply Hle].
      * split; [done|]. split; [by left|].
        intros x [->|Hx]%elem_of_cons Hnx; [by apply float_leb_refl|].
        eapply float_leb_trans; [by apply Hle|by apply float_leb_total].
Qed.

End FloatOrder.

(** What a finished run on machine floats hands over. *)
Lemma binary64_app_done_inv step use_global compensated df a rc :
  Binary64.app step use_global compensated df = Done (a, rc) →
  a = Binary64.round_temperatures
        (Binary64.aggregate compensated
           (Binary64.time_grouping step (Binary64.clamp df))) ∧
  rc = Binary64.range_color use_global a.
Proof.
  unfold Binary64.app. repeat case_bool_decide; try done. by intros [= <- <-].
Qed.

(** C8, as the code has it.  With the global scale the colour range is the
    pair of the least and the greatest [AverageTemperature] of the
    aggregated frame, NaN skipped: every value of the column that is a
    number lies between the two, which are values of the column when it
    holds a number and NaN when it holds none.  Without the global scale
    there is no range.  Stated on machine floats, for the means summed
    with and without compensation. *)
Theorem range_color_bounds_the_numbers
    (step : time_step) (use_global compensated : bool)
    (df : list Binary64.LoadedRow) a rc :
  Binary64.app step use_global compensated df = Done (a, rc) →
  if use_global then
    ∃ lo hi : PrimFloat.float,
      rc = Some (lo, hi) ∧
      (∀ r, r ∈ a →
         PrimFloat.is_nan (Binary64.agg.AverageTemperature r) = false →
         PrimFloat.leb lo (Binary64.agg.AverageTemperature r) = true ∧
         PrimFloat.leb (Binary64.agg.AverageTemperature r) hi = true) ∧
      ((∃ r, r ∈ a ∧
          PrimFloat.is_nan (Binary64.agg.AverageTemperature r) = false) →
       lo ∈ Binary64.agg.AverageTemperature <$> a ∧
       hi ∈ Binary64.agg.AverageTemperature <$> a) ∧
      ((∀ r, r ∈ a →
          PrimFloat.is_nan (Binary64.agg.AverageTemperature r) = true) →
       lo = PrimFloat.nan ∧ hi = PrimFloat.nan)
  else rc = None.
Proof.
  intros [_ ->]%binary64_app_done_inv.
  destruct use_global; [|done]. cbn [Binary64.range_color].
  set (temps := Binary64.agg.AverageTemperature <$> a).
  eexists _, _. split; [reflexivity|].
  assert (∀ r, r ∈ a → Binary64.agg.AverageTemperature r ∈ temps) as Hin
    by (intros r Hr; by apply list_elem_of_fmap_2).
  destruct (series_min_spec temps) as [[Hnan Hlo]|(Hlo & Hlo_in & Hmin)],
    (series_max_spec temps) as [[Hnan' Hhi]|(Hhi & Hhi_in & Hmax)].
  - rewrite list.Forall_forall in Hnan. split; [|split].
    + intros r Hr Hnum. specialize (Hnan _ (Hin r Hr)). congruence.
    + intros (r & Hr & Hnum). specialize (Hnan _ (Hin r Hr)). congruence.
    + done.
  - rewrite list.Forall_forall in Hnan. specialize (Hnan _ Hhi_in). congruence.
  - rewrite list.Forall_forall in Hnan'. specialize (Hnan' _ Hlo_in). congruence.
  - split; [|split].
    + intros r Hr Hnum. split; [apply Hmin|apply Hmax]; auto.
    + done.
    + intros Hall. apply list_elem_of_fmap in Hlo_in as (r & Hr & Hin').
      specialize (Hall _ Hin'). congruence.
Qed.

Lemma range_color_bounds_the_numbers_witness :
  ∃ a lo hi,
    Binary64.app Yearly true true Binary64.opposite_infinities
      = Done (a, Some (lo, hi)) ∧
    lo ∈ Binary64.agg.AverageTemperature <$> a ∧
    hi ∈ Binary64.agg.AverageTemperature <$> a.
Proof.
  eexists _, _, _.
  match goal with
  | |- ?A ∧ _ => assert A as Happ by (vm_compute; reflexivity)
  end.
  split; [exact Happ|].
  destruct (range_color_bounds_the_numbers _ true _ _ _ _ Happ)
    as (lo & hi & [= <- <-] & _ & Hin & _).
  apply Hin. eexists. split; [apply list_elem_of_here|reflexivity].
Defined.

(** C8, where it fails.  A group that holds [inf] and [-inf] has the
    mean NaN, with or without compensation.  [min] and [max] skip it: the
    range is (5.0, 5.0), and the NaN of the column is neither at least the
    one nor at most the other. *)
Lemma mean_of_opposite_infinities_is_outside_the_range :
  ∃ a lo hi r,
    Binary64.app Yearly true true Binary64.opposite_infinities
      = Done (a, Some (lo, hi)) ∧
    Binary64.app Yearly true false Binary64.opposite_infinities
      = Done (a, Some (lo, hi)) ∧
    r ∈ a ∧
    Binary64.agg.City r = "Paris" ∧
    PrimFloat.is_nan (Binary64.agg.AverageTemperature r) = true ∧
    PrimFloat.leb lo (Binary64.agg.AverageTemperature r) = false ∧
    PrimFloat.leb (Binary64.agg.AverageTemperature r) hi = false ∧
    lo = Binary64.dec 5 0 ∧ hi = Binary64.dec 5 0.
Proof.
  eexists _, _, _, _.
  split; [vm_compute; reflexivity|].
  split; [vm_compute; reflexivity|].
  split; [apply list_elem_of_further, list_elem_of_here|].
  repeat split; vm_compute; reflexivity.
Qed.

(** ** C5, C6 *)

Section Claims5.

Variable to_datetime_scalar : cell → option Timestamp.
Variable to_numeric_scalar : string → option pyfloat.
Variable py_float : string → option pyfloat.

#[local] Abbreviation coerce_fields :=
  (coerce_fields to_datetime_scalar to_numeric_scalar).
#[local] Abbreviation coerce_row :=
  (coerce_row to_datetime_scalar to_numeric_scalar).
#[local] Abbreviation load_data :=
  (load_data to_datetime_scalar to_numeric_scalar py_float).

(** C5.  [load_data] raises the missing-columns error exactly when some
    expected column is not in the header, and the error carries the set of
    the expected columns that are not there.  The rows play no part: with
    such a header the error is the same whatever the rows are. *)
Theorem missing_columns_raised_before_rows dir name df rest :
  sorted_csvs dir = (name, df) :: rest →
  let missing := expected ∖ list_to_set (columns df) in
  (missing ≠ ∅ → load_data dir = Raise (ValueError_MissingColumns missing)) ∧
  (∀ m, load_data dir = Raise (ValueError_MissingColumns m) →
        m = missing ∧ missing ≠ ∅) ∧
  (∀ rows', missing ≠ ∅ →
     load_data [(name, mkDataFrame (columns df) rows')] =
       Raise (ValueError_MissingColumns missing)).
Proof.
  intros Hsel missing. split; [|split].
  - intros Hne. unfold load_data. rewrite Hsel. by rewrite decide_True.
  - intros m. unfold load_data. rewrite Hsel. fold missing.
    case_decide as Hne; [by intros [= <-]|].
    rewrite coerce_fields_ok. cbn.
    destruct (normalize_coordinates py_float _) as [l|e] eqn:Hn; [done|].
    apply normalize_coordinates_raise_inv in Hn as [s ->]. done.
  - intros rows' Hne. unfold load_data. cbn. by rewrite decide_True.
Qed.

(** C6.  Lines 39-41 never raise: they return the frame in which every row
    is coerced on its own, an unparseable date being NaT and an unparseable
    temperature or uncertainty being NaN. *)
Theorem coercion_never_raises (df : list RawRow) :
  coerce_fields df = Ok (coerce_row <$> df) ∧
  ∀ r : RawRow,
    (to_datetime_scalar (dt r) = None → dt (coerce_row r) = None) ∧
    (∀ s, AverageTemperature r = CStr s → to_numeric_scalar s = None →
          AverageTemperature (coerce_row r) = NaN) ∧
    (∀ s, AverageTemperatureUncertainty r = CStr s →
          to_numeric_scalar s = None →
          AverageTemperatureUncertainty (coerce_row r) = NaN).
Proof.
  split; [apply coerce_fields_ok|].
  intros r. repeat split.
  - intros Hd. cbn. rewrite Hd. by destruct (isna (dt r)).
  - intros s Hs Hn. cbn. by rewrite Hs, Hn.
  - intros s Hs Hn. cbn. by rewrite Hs, Hn.
Qed.

End Claims5.

Lemma missing_columns_raised_before_rows_witness :
  load_data ref_datetime ref_numeric ref_float no_country_dir =
    Raise (ValueError_MissingColumns {["Country"]}).
Proof.
  destruct (missing_columns_raised_before_rows
              ref_datetime ref_numeric ref_float no_country_dir
              _ _ _ eq_refl) as (Hraise & _ & _).
  assert (expected ∖ list_to_set (columns (mkDataFrame
            ["dt"; "AverageTemperature"; "AverageTemperatureUncertainty";
             "City"; "Latitude"; "Longitude"] [paris_jan; paris_feb]))
          = ({["Country"]} : gset string)) as Hmissing
    by (vm_compute; reflexivity).
  rewrite Hmissing in Hraise. apply Hraise.
  intros Hempty. vm_compute in Hempty. discriminate Hempty.
Defined.

Example coercion_of_a_bad_row :
  coerce_fields ref_datetime ref_numeric
    [mkRow (CStr "last winter") (CStr "cold") (CStr "?")
       (Some "Paris") (Some "France") (CStr "48.85N") (CStr "2.35E")] =
  Ok [mkRow None NaN NaN (Some "Paris") (Some "France")
        (CStr "48.85N") (CStr "2.35E")].
Proof. reflexivity. Qed.

(** ** C7, C9 *)

Section Claims7.

Variable to_datetime_scalar : cell → option Timestamp.
Variable to_numeric_scalar : string → option pyfloat.
Variable py_float : string → option pyfloat.

#[local] Abbreviation coerce_row :=
  (coerce_row to_datetime_scalar to_numeric_scalar).
#[local] Abbreviation app :=
  (app to_datetime_scalar to_numeric_scalar py_float).

(** C7.  A coordinate that ends in one of [N], [S], [E], [W] and whose text
    before the letter is not a number makes [_to_float] raise, and the run
    ends with that exception when the value is the latitude or longitude of
    a row that [dropna] keeps: no frame is produced and the value is not
    turned into NaN. *)
Theorem malformed_suffixed_coordinate_halts
    (step : time_step) (use_global : bool)
    (u : string) (c : ascii) dir name df rest (r : RawRow) (d : DroppedRow) :
  (∀ s, py_float (lstrip s) = py_float s) →
  char_in c "NSEW" = true →
  py_float u = None →
  sorted_csvs dir = (name, df) :: rest →
  expected ⊆ list_to_set (columns df) →
  r ∈ rows df →
  dropna_row (coerce_row r) = Some d →
  Latitude r = CStr (u +:+ String c EmptyString) ∨
  Longitude r = CStr (u +:+ String c EmptyString) →
  _to_float py_float (CStr (u +:+ String c EmptyString)) =
    Raise (ValueError_CouldNotConvert (lstrip u)) ∧
  ∃ s, app step use_global dir = Failed (ValueError_CouldNotConvert s).
Proof.
  intros Hws Hc Hu Hsel Hcols Hr Hd Hcoord.
  assert (_to_float py_float (CStr (u +:+ String c EmptyString)) =
            Raise (ValueError_CouldNotConvert (lstrip u))) as Hraise.
  { rewrite to_float_suffix by done. by rewrite Hws, Hu. }
  split; [done|].
  eapply app_fails_on_bad_coordinate; [exact Hsel|exact Hcols|exact Hr|exact Hd|].
  destruct Hcoord as [-> | ->]; [left|right]; exact Hraise.
Qed.

(** C9, as the code has it.  The letter is looked for after the white space
    is stripped.  A text whose stripped form is empty or does not end in
    one of [N], [S], [E], [W] is given whole, stripped, to [float]: the
    result is that number, or the [ValueError] of [float], which ends the
    run when the value is a coordinate of a row that [dropna] keeps.  When
    [float] rejects the empty text, so are the empty coordinate and the one
    made of a hemisphere letter alone. *)
Theorem plain_coordinate_parsed_whole
    (step : time_step) (use_global : bool) (x : string) :
  match str_last (strip x) with
  | Some c => char_in c "NSEW" = false
  | None => True
  end →
  _to_float py_float (CStr x) =
    match py_float (strip x) with
    | Some v => Ok v
    | None => Raise (ValueError_CouldNotConvert (strip x))
    end ∧
  (py_float (strip x) = None →
   ∀ dir name df rest (r : RawRow) (d : DroppedRow),
     sorted_csvs dir = (name, df) :: rest →
     expected ⊆ list_to_set (columns df) →
     r ∈ rows df →
     dropna_row (coerce_row r) = Some d →
     Latitude r = CStr x ∨ Longitude r = CStr x →
     ∃ s, app step use_global dir = Failed (ValueError_CouldNotConvert s)) ∧
  (py_float EmptyString = None →
   _to_float py_float (CStr EmptyString) =
     Raise (ValueError_CouldNotConvert EmptyString) ∧
   ∀ c, char_in c "NSEW" = true →
     _to_float py_float (CStr (String c EmptyString)) =
       Raise (ValueError_CouldNotConvert EmptyString)).
Proof.
  intros Hx. pose proof (to_float_plain py_float x Hx) as Hplain.
  split; [exact Hplain|]. split.
  - intros Hnone dir name df rest r d Hsel Hcols Hr Hd Hcoord.
    rewrite Hnone in Hplain.
    eapply app_fails_on_bad_coordinate;
      [exact Hsel|exact Hcols|exact Hr|exact Hd|].
    destruct Hcoord as [-> | ->]; [left|right]; exact Hplain.
  - intros Hempty. split.
    + cbn. by rewrite Hempty.
    + intros c Hc.
      pose proof (to_float_suffix py_float EmptyString c Hc) as Hs.
      cbn [lstrip] in Hs. rewrite Hempty in Hs. exact Hs.
Qed.

End Claims7.

Lemma malformed_suffixed_coordinate_halts_witness :
  ref_float "4x.85" = None ∧
  bad_latitude ∈ rows (mkDataFrame header [paris_jan; bad_latitude]) ∧
  _to_float ref_float (CStr "4x.85N") = Raise (ValueError_CouldNotConvert "4x.85") ∧
  ∃ s, app ref_datetime ref_numeric ref_float Yearly true bad_latitude_dir
         = Failed (ValueError_CouldNotConvert s).
Proof.
  split; [reflexivity|]. split; [apply list_elem_of_further, list_elem_of_here|].
  eapply (malformed_suffixed_coordinate_halts
            ref_datetime ref_numeric ref_float Yearly true "4x.85" "N"
            bad_latitude_dir _ _ _ bad_latitude).
  - exact ref_float_lstrip.
  - reflexivity.
  - reflexivity.
  - reflexivity.
  - apply missing_empty_iff. vm_compute. reflexivity.
  - apply list_elem_of_further, list_elem_of_here.
  - vm_compute. reflexivity.
  - left. reflexivity.
Defined.

Lemma plain_coordinate_parsed_whole_witness :
  str_last (strip " east ") = Some "t"%char ∧
  _to_float ref_float (CStr " east ") =
    Raise (ValueError_CouldNotConvert "east") ∧
  _to_float ref_float (CStr " 2.35 ") = Ok (dec 235 2).
Proof.
  split; [reflexivity|].
  destruct (plain_coordinate_parsed_whole
              ref_datetime ref_numeric ref_float Yearly true " east " eq_refl)
    as (Heast & _ & _).
  destruct (plain_coordinate_parsed_whole
              ref_datetime ref_numeric ref_float Yearly true " 2.35 " eq_refl)
    as (Hnum & _ & _).
  split; [exact Heast|].
  rewrite Hnum. vm_compute. reflexivity.
Defined.

(** The text ["45N "] ends in a space, not in a hemisphere letter, and its
    stripped form ["45N"] is not a number; yet the normalizer returns 45: it
    strips the space first and then finds the letter. *)
Lemma trailing_space_after_hemisphere_letter :
  str_last "45N " = Some " "%char ∧
  char_in " " "NSEW" = false ∧
  strip "45N " = "45N" ∧
  ref_float "45N" = None ∧
  _to_float ref_float (CStr "45N ") = Ok (dec 45 0).
Proof. repeat split; vm_compute; reflexivity. Qed.

(** ** C10 *)





(** * More of the pipeline *)

(** ** The table of groups, key by key *)

Lemma groupby_snoc (df : list Binned) (r : Binned) :
  groupby (df ++ [r])%list = group_insert r (groupby df).
Proof. unfold groupby. by rewrite foldl_snoc. Qed.

Lemma group_lookup_None_lt (k : key) (gs : list (key * Group)) :
  Forall (λ kg, key_compare k kg.1 = Lt) gs → group_lookup k gs = None.
Proof.
  induction 1 as [|[k' g] gs Hk _ IH]; [done|]. cbn in *.
  rewrite decide_False; [done|]. intros ->. by apply cmp_lt_irrefl in Hk.
Qed.

(** Looking a key up after a row went in: the group of the row has the row
    added, the others are as they were. *)
Lemma group_lookup_insert (k : key) (r : Binned) (gs : list (key * Group)) :
  StronglySorted key_lt gs →
  group_lookup k (group_insert r gs) =
    if decide (row_key r = k)
    then Some (group_add r (default group_empty (group_lookup k gs)))
    else group_lookup k gs.
Proof.
  induction 1 as [|[k' g] gs Hs IH Hall]; cbn [group_insert group_lookup].
  - done.
  - destruct (key_compare (row_key r) k') eqn:Hc; cbn [group_lookup].
    + apply cmp_eq in Hc as <-. by case_decide.
    + case_decide as Hk; [|done]. subst k.
      rewrite decide_False by (intros ->; by apply cmp_lt_irrefl in Hc).
      rewrite group_lookup_None_lt; [done|].
      eapply list.Forall_impl; [exact Hall|].
      intros [k2 g2] Hlt. unfold key_lt in Hlt; cbn in *. by eapply cmp_trans.
    + rewrite IH.
      destruct (decide (row_key r = k)) as [Hr|Hr],
        (decide (k' = k)) as [Hk|Hk]; try done.
      subst k k'. by rewrite cmp_refl in Hc.
Qed.

Lemma group_rows_snoc (k : key) (df : list Binned) (r : Binned) :
  group_rows k (df ++ [r])%list =
    (group_rows k df ++ (if decide (row_key r = k) then [r] else []))%list.
Proof.
  unfold group_rows. rewrite list.filter_app. f_equal.
Qed.

Lemma group_fold_snoc (rs : list Binned) (r : Binned) :
  group_fold (rs ++ [r])%list = group_add r (group_fold rs).
Proof. unfold group_fold. by rewrite foldl_snoc. Qed.

(** The table of groups holds, under each key that a row carries, what the
    rows of that key add up to, and nothing under the other keys. *)
Lemma groupby_lookup (k : key) (df : list Binned) :
  group_lookup k (groupby df) =
    match group_rows k df with
    | [] => None
    | rs => Some (group_fold rs)
    end.
Proof.
  induction df as [|r df IH] using rev_ind; [done|].
  rewrite groupby_snoc, group_lookup_insert by apply groupby_sorted.
  rewrite IH, group_rows_snoc.
  case_decide as Hk.
  - destruct (group_rows k df) as [|r0 rs] eqn:Hrows; cbn [default app].
    + done.
    + change (Some (group_add r (group_fold (r0 :: rs))) =
              Some (group_fold ((r0 :: rs) ++ [r])%list)).
      by rewrite group_fold_snoc.
  - rewrite app_nil_r. done.
Qed.

Lemma elem_of_group_lookup (k : key) (g : Group) (gs : list (key * Group)) :
  StronglySorted key_lt gs →
  (k, g) ∈ gs ↔ group_lookup k gs = Some g.
Proof.
  induction 1 as [|[k' g'] gs Hs IH Hall]; cbn [group_lookup].
  - split; [by intros ?%elem_of_nil|done].
  - rewrite elem_of_cons, IH. case_decide as Hk.
    + subst k'. split.
      * intros [[= ->]|Hl]; [done|]. exfalso.
        apply IH in Hl. rewrite list.Forall_forall in Hall.
        specialize (Hall _ Hl). by apply cmp_lt_irrefl in Hall.
      * intros [= ->]. by left.
    + split; [|by right]. intros [[= -> ->]|Hl]; done.
Qed.

(** ** Means *)







(** ** The aggregated frame, row by row *)

Lemma elem_of_round_aggregate (df : list Binned) (a : agg.row) :
  a ∈ round_temperatures (aggregate df) ↔
  ∃ k g,
    group_lookup k (groupby df) = Some g ∧
    a = agg.mk k.1.1 k.1.2 k.2
          (round_ 1 (mean_value (g_AverageTemperature g)))
          (round_ 1 (mean_value (g_AverageTemperatureUncertainty g)))
          (mean_value (g_Latitude g)) (mean_value (g_Longitude g)).
Proof.
  unfold round_temperatures, aggregate. rewrite <- list_fmap_compose.
  rewrite list_elem_of_fmap. split.
  - intros ([k g] & -> & Hin). exists k, g.
    split; [|done]. by apply elem_of_group_lookup; [apply groupby_sorted|].
  - intros (k & g & Hl & ->). exists (k, g).
    split; [done|]. by apply elem_of_group_lookup; [apply groupby_sorted|].
Qed.

(** Every row of the frame falls in a group of the output. *)
Lemma aggregate_has_row_key (df : list Binned) (r : Binned) :
  r ∈ df →
  ∃ a, a ∈ round_temperatures (aggregate df) ∧ agg_key a = row_key r.
Proof.
  intros Hr.
  assert (r ∈ group_rows (row_key r) df) as Hin
    by by apply list_elem_of_filter.
  destruct (group_rows (row_key r) df) as [|r0 rs] eqn:Hrows;
    [by apply elem_of_nil in Hin|].
  eexists. split.
  - apply elem_of_round_aggregate. exists (row_key r). eexists.
    split; [|reflexivity]. by rewrite groupby_lookup, Hrows.
  - done.
Qed.

(** A row of the output comes from a key under which the frame has rows,
    and holds what the accumulators of these rows give. *)
Lemma aggregate_row_inv (df : list Binned) (a : agg.row) :
  a ∈ round_temperatures (aggregate df) →
  ∃ r rs,
    group_rows (agg_key a) df = r :: rs ∧
    a = agg.mk (agg_key a).1.1 (agg_key a).1.2 (agg_key a).2
          (round_ 1 (mean_value (g_AverageTemperature (group_fold (r :: rs)))))
          (round_ 1 (mean_value
                       (g_AverageTemperatureUncertainty (group_fold (r :: rs)))))
          (mean_value (g_Latitude (group_fold (r :: rs))))
          (mean_value (g_Longitude (group_fold (r :: rs)))).
Proof.
  intros (k & g & Hl & ->)%elem_of_round_aggregate.
  assert (agg_key (agg.mk k.1.1 k.1.2 k.2
            (round_ 1 (mean_value (g_AverageTemperature g)))
            (round_ 1 (mean_value (g_AverageTemperatureUncertainty g)))
            (mean_value (g_Latitude g)) (mean_value (g_Longitude g))) = k)
    as -> by by destruct k as [[??]?].
  rewrite groupby_lookup in Hl.
  destruct (group_rows k df) as [|r rs] eqn:Hrows; [done|].
  injection Hl as <-. eauto.
Qed.

(** The keys of the aggregated frame are the keys of the rows: every row
    falls in a group of the output and every group has a row. *)
Theorem aggregated_keys_are_row_keys (df : list Binned) (k : key) :
  k ∈ agg_key <$> round_temperatures (aggregate df) ↔
  ∃ r, r ∈ df ∧ row_key r = k.
Proof.
  rewrite list_elem_of_fmap. split.
  - intros (a & -> & (r & rs & Hrows & _)%aggregate_row_inv).
    assert (r ∈ group_rows (agg_key a) df) as Hr by (rewrite Hrows; by left).
    apply list_elem_of_filter in Hr as [Hk Hr]. eauto.
  - intros (r & Hr & <-).
    destruct (aggregate_has_row_key df r Hr) as (a & Ha & Hk). eauto.
Qed.



(** ** Choosing the file *)

#[global] Instance name_le_total :
  Total (λ a b : string * DataFrame, String.le a.1 b.1).
Proof. intros a b. apply String.le_total. Qed.

#[global] Instance name_le_trans :
  Transitive (λ a b : string * DataFrame, String.le a.1 b.1).
Proof. intros a b c. apply (transitivity (R:=String.le)). Qed.

(** The head of the sorted listing is a file of the directory whose name is
    least. *)
Lemma sorted_csvs_head dir name df rest :
  sorted_csvs dir = (name, df) :: rest →
  (name, df) ∈ dir ∧ ∀ n f, (n, f) ∈ dir → String.le name n.
Proof.
  intros Hs.
  assert (dir ≡ₚ (name, df) :: rest) as Hp
    by (rewrite <- Hs; unfold sorted_csvs; by rewrite merge_sort_Permutation).
  split; [rewrite Hp; by left|].
  intros n f Hin. rewrite Hp in Hin.
  pose proof (StronglySorted_merge_sort
                (λ a b : string * DataFrame, String.le a.1 b.1) dir) as Hsorted.
  fold (sorted_csvs dir) in Hsorted. rewrite Hs in Hsorted.
  apply StronglySorted_inv in Hsorted as [_ Hall].
  apply elem_of_cons in Hin as [[= -> ->]|Hin].
  - apply (reflexivity (R:=String.le)).
  - rewrite list.Forall_forall in Hall. exact (Hall _ Hin).
Qed.

Section LoadExtras.

Variable to_datetime_scalar : cell → option Timestamp.
Variable to_numeric_scalar : string → option pyfloat.
Variable py_float : string → option pyfloat.

#[local] Abbreviation coerce_row :=
  (coerce_row to_datetime_scalar to_numeric_scalar).
#[local] Abbreviation normalize_coordinates := (normalize_coordinates py_float).
#[local] Abbreviation load_data :=
  (load_data to_datetime_scalar to_numeric_scalar py_float).

(** The file that is loaded is the one whose name comes first: the name
    [load_data] returns is the name of a file of the directory and no file
    of the directory has a smaller name. *)
Theorem load_data_takes_first_name dir df fname :
  load_data dir = Ok (df, fname) →
  (∃ f, (fname, f) ∈ dir) ∧ ∀ n f, (n, f) ∈ dir → String.le fname n.
Proof.
  intros (f & rest & m & Hs & _)%load_data_ok_inv.
  destruct (sorted_csvs_head _ _ _ _ Hs) as [Hin Hle]. eauto.
Qed.

End LoadExtras.

(** A directory with two files; the sample is the second one listed. *)
Lemma load_data_takes_first_name_witness :
  ∃ df,
    load_data ref_datetime ref_numeric ref_float
      (("zz.csv", mkDataFrame header [off_the_globe]) :: sample_dir)
      = Ok (df, "temperatures.csv") ∧
    String.le "temperatures.csv" "zz.csv".
Proof.
  eexists.
  match goal with
  | |- ?A ∧ _ => assert A as Hload by (vm_compute; reflexivity)
  end.
  split; [exact Hload|].
  destruct (load_data_takes_first_name _ _ _ _ _ _ Hload) as [_ Hle].
  apply (Hle "zz.csv" (mkDataFrame header [off_the_globe])). by left.
Defined.

(** ** The order of dates *)

Ltac case_compares :=
  repeat match goal with
  | |- context [Z.compare ?x ?y] => destruct (Z.compare_spec x y)
  | H : context [Z.compare ?x ?y] |- _ => destruct (Z.compare_spec x y)
  end.

#[global] Instance ts_compare_total : TotalCompare ts_compare.
Proof.
  split.
  - intros [y1 m1 d1 n1] [y2 m2 d2 n2]. unfold ts_compare; cbn.
    case_compares; try done. by subst.
  - intros [y m d n]. unfold ts_compare; cbn. by rewrite !Z.compare_refl.
  - intros [y1 m1 d1 n1] [y2 m2 d2 n2]. unfold ts_compare; cbn.
    case_compares; try done; lia.
  - intros [y1 m1 d1 n1] [y2 m2 d2 n2] [y3 m3 d3 n3]. unfold ts_compare; cbn.
    intros H12 H23. case_compares; try done; lia.
Qed.

#[global] Instance dt_le_total {T U S La Lo} :
  Total (@dt_le T U S La Lo).
Proof.
  intros a b. unfold dt_le, ts_leb.
  rewrite (cmp_antisym (cmp:=ts_compare) (dt b) (dt a)).
  destruct (ts_compare (dt a) (dt b)); cbn; auto.
Qed.

#[global] Instance dt_le_trans {T U S La Lo} :
  Transitive (@dt_le T U S La Lo).
Proof.
  intros a b c. unfold dt_le, ts_leb.
  destruct (ts_compare (dt a) (dt b)) eqn:Hab; [|..|done];
    destruct (ts_compare (dt b) (dt c)) eqn:Hbc; try done; intros _ _.
  - apply cmp_eq in Hab. by rewrite Hab, Hbc.
  - apply cmp_eq in Hab. by rewrite Hab, Hbc.
  - apply cmp_eq in Hbc. by rewrite <- Hbc, Hab.
  - by rewrite (cmp_trans _ _ _ Hab Hbc).
Qed.

(** ** More on [load_data] *)

Section LoadExtras2.

Variable to_datetime_scalar : cell → option Timestamp.
Variable to_numeric_scalar : string → option pyfloat.
Variable py_float : string → option pyfloat.

#[local] Abbreviation coerce_fields :=
  (coerce_fields to_datetime_scalar to_numeric_scalar).
#[local] Abbreviation coerce_row :=
  (coerce_row to_datetime_scalar to_numeric_scalar).
#[local] Abbreviation normalize_coordinates := (normalize_coordinates py_float).
#[local] Abbreviation load_data :=
  (load_data to_datetime_scalar to_numeric_scalar py_float).

(** Only the seven expected names are looked for in the header: two files
    of the same name with the same rows load alike, whatever else their
    headers hold and in whatever order, once both have the seven. *)
Theorem load_data_ignores_other_columns
    dir dir' name cols cols' rws rest rest' :
  sorted_csvs dir = (name, mkDataFrame cols rws) :: rest →
  sorted_csvs dir' = (name, mkDataFrame cols' rws) :: rest' →
  expected ⊆ list_to_set cols →
  expected ⊆ list_to_set cols' →
  load_data dir = load_data dir'.
Proof.
  intros Hs Hs' Hc Hc'.
  rewrite (load_data_selected _ _ _ _ _ _ _ Hs) by done.
  by rewrite (load_data_selected _ _ _ _ _ _ _ Hs') by done.
Qed.

(** Line 55 runs over the whole column before line 56 starts: the run ends
    with the exception of the first latitude that [float] rejects, and with
    that of the first such longitude only when every latitude is read. *)
Theorem normalize_coordinates_first_error
    (l1 : list DroppedRow) (r : DroppedRow) (l2 : list DroppedRow) (e : exn) :
  Forall (λ x, ∃ v, _to_float py_float (Latitude x) = Ok v) l1 →
  (_to_float py_float (Latitude r) = Raise e →
   normalize_coordinates (l1 ++ r :: l2)%list = Raise e) ∧
  (Forall (λ x, ∃ v, _to_float py_float (Latitude x) = Ok v) (r :: l2) →
   Forall (λ x, ∃ v, _to_float py_float (Longitude x) = Ok v) l1 →
   _to_float py_float (Longitude r) = Raise e →
   normalize_coordinates (l1 ++ r :: l2)%list = Raise e).
Proof.
  intros Hl1. split.
  - intros Hr. unfold normalize_coordinates, assign.
    assert (apply_series
              (λ x : DroppedRow,
                 v ← _to_float py_float (Latitude x); Ok (set_Latitude v x))
              (l1 ++ r :: l2)%list = Raise e) as ->; [|done].
    induction Hl1 as [|x l1 [v Hv] _ IH];
      rewrite ?app_nil_l, <- ?app_comm_cons; cbn [apply_series].
    + by rewrite Hr.
    + rewrite Hv. cbn. by rewrite IH.
  - intros Hrl2 Hlon Hr. unfold normalize_coordinates, assign.
    assert (Forall (λ x, ∃ v, _to_float py_float (Latitude x) = Ok v)
              (l1 ++ r :: l2)%list) as Hlat by by apply Forall_app.
    assert (∀ l : list DroppedRow,
              Forall (λ x, ∃ v, _to_float py_float (Latitude x) = Ok v) l →
              ∃ m, apply_series
                     (λ x : DroppedRow,
                        v ← _to_float py_float (Latitude x);
                        Ok (set_Latitude v x)) l = Ok m ∧
                   Forall2 (λ x y, Longitude y = Longitude x) l m) as Hpass.
    { induction 1 as [|x l [v Hv] _ (m & Hm & Hf)]; [by eexists|].
      cbn [apply_series]. rewrite Hv. cbn. rewrite Hm. cbn.
      eexists. split; [done|]. by constructor. }
    destruct (Hpass _ Hlat) as (m & -> & Hf). cbn.
    apply Forall2_app_inv_l in Hf as (m1 & m2 & Hf1 & Hf2 & ->).
    inversion Hf2 as [|? y ? m2' Hy Hf2']; subst.
    clear Hpass Hlat Hl1 Hrl2 Hf2 Hf2'.
    induction Hf1 as [|x y1 l1 m1 Hy1 Hf1 IH];
      rewrite ?app_nil_l, <- ?app_comm_cons; cbn [apply_series].
    + rewrite Hy, Hr. done.
    + inversion_clear Hlon as [|?? [v Hv] Hlon'].
      rewrite Hy1, Hv. cbn. by rewrite IH.
Qed.

(** The frame [load_data] returns is in ascending order of [dt]. *)
Theorem load_data_sorted_by_dt dir df fname :
  load_data dir = Ok (df, fname) →
  StronglySorted (λ a b : LoadedRow, ts_compare (dt a) (dt b) ≠ Gt) df.
Proof.
  intros (f & rest & m & _ & _ & _ & ->)%load_data_ok_inv.
  pose proof (StronglySorted_merge_sort (@dt_le Qc pyfloat string pyfloat pyfloat) m)
    as Hs.
  unfold sort_values_dt.
  induction Hs as [|a l _ IH Hall]; constructor; [done|].
  eapply list.Forall_impl; [exact Hall|].
  intros b. unfold dt_le, ts_leb. by destruct (ts_compare (dt a) (dt b)).
Qed.

End LoadExtras2.

Lemma load_data_ignores_other_columns_witness :
  load_data ref_datetime ref_numeric ref_float sample_dir =
  load_data ref_datetime ref_numeric ref_float
    [("temperatures.csv",
      mkDataFrame ("Longitude" :: "Population" :: "Latitude" :: header)
        [paris_jan; oslo_1900; paris_feb; lima_1850; paris_1600])].
Proof.
  eapply load_data_ignores_other_columns.
  - reflexivity.
  - reflexivity.
  - apply missing_empty_iff. vm_compute. reflexivity.
  - apply missing_empty_iff. vm_compute. reflexivity.
Defined.

Lemma normalize_coordinates_first_error_witness :
  _to_float ref_float (Longitude kept_bad_longitude) =
    Raise (ValueError_CouldNotConvert "east") ∧
  normalize_coordinates ref_float [kept_bad_longitude; kept_bad_latitude] =
    Raise (ValueError_CouldNotConvert "4x.85").
Proof.
  split; [reflexivity|].
  refine (proj1 (normalize_coordinates_first_error ref_float
            [kept_bad_longitude] kept_bad_latitude [] _ _) _).
  - constructor; [|constructor]. eexists. vm_compute. reflexivity.
  - reflexivity.
Defined.

Lemma load_data_sorted_by_dt_witness :
  ∃ df fname,
    load_data ref_datetime ref_numeric ref_float sample_dir = Ok (df, fname) ∧
    StronglySorted (λ a b : LoadedRow, ts_compare (dt a) (dt b) ≠ Gt) df.
Proof.
  eexists _, _.
  match goal with
  | |- ?A ∧ _ => assert A as Hload by (vm_compute; reflexivity)
  end.
  split; [exact Hload|].
  exact (load_data_sorted_by_dt _ _ _ _ _ _ Hload).
Defined.

(** ** The clamp and the end of the run *)

(** Which rows line 69 keeps, said on the calendar: those of the years 1743
    to 2013, except that on 2013-12-31 only midnight passes, because the
    upper bound is read as the instant that begins that day. *)
Theorem clamp_on_the_calendar (df : list LoadedRow) (r : LoadedRow) :
  well_formed (dt r) →
  r ∈ clamp df ↔
  r ∈ df ∧ 1743 ≤ year (dt r) ≤ 2013 ∧
  ¬ (year (dt r) = 2013 ∧ month (dt r) = 12 ∧ day (dt r) = 31 ∧
     0 < nanos (dt r)).
Proof.
  intros (Hm & Hd & Hn). rewrite elem_of_clamp.
  destruct (dt r) as [y m d n]; cbn [year month day nanos] in *.
  unfold ts_leb, ts_compare, clamp_lo, clamp_hi; cbn [year month day nanos].
  split; intros (Hin & H); (split; [done|]); revert H;
    case_compares; cbn; intros; (lia || tauto).
Qed.

Lemma clamp_on_the_calendar_witness :
  well_formed (dt last_day_noon) ∧ last_day_noon ∉ clamp [last_day_noon].
Proof.
  assert (well_formed (dt last_day_noon)) as Hwf
    by (unfold well_formed; cbn; lia).
  split; [exact Hwf|].
  intros Hin.
  apply (clamp_on_the_calendar [last_day_noon] last_day_noon Hwf) in Hin
    as (_ & _ & Hnot).
  apply Hnot. cbn. lia.
Defined.

Section RunExtras.

Variable to_datetime_scalar : cell → option Timestamp.
Variable to_numeric_scalar : string → option pyfloat.
Variable py_float : string → option pyfloat.
Variable TIME_STEP : time_step.
Variable USE_GLOBAL_COLOR_SCALE : bool.

#[local] Abbreviation load_data :=
  (load_data to_datetime_scalar to_numeric_scalar py_float).
#[local] Abbreviation app :=
  (app to_datetime_scalar to_numeric_scalar py_float
     TIME_STEP USE_GLOBAL_COLOR_SCALE).

Lemma aggregate_nonempty (df : list Binned) :
  df ≠ [] → round_temperatures (aggregate df) ≠ [].
Proof.
  destruct df as [|r df]; [done|]. intros _ Hnil.
  destruct (aggregate_has_row_key (r :: df) r) as (a & Ha & _); [by left|].
  rewrite Hnil in Ha. by apply elem_of_nil in Ha.
Qed.

(** The run has three ends: the exception of [load_data]; the stop of line
    72 when no loaded row is within the clamp; otherwise the figure, with a
    frame that is not empty.  The stop of line 98 never happens. *)
Theorem app_outcomes (dir : list (string * DataFrame)) :
  (∀ e, load_data dir = Raise e → app dir = Failed e) ∧
  (∀ df fname, load_data dir = Ok (df, fname) → clamp df = [] →
     app dir = Stopped "No data in required range.") ∧
  (∀ df fname, load_data dir = Ok (df, fname) → clamp df ≠ [] →
     ∃ a, a ≠ [] ∧
       app dir = Done (a, range_color USE_GLOBAL_COLOR_SCALE a)) ∧
  app dir ≠ Stopped "No aggregated data available.".
Proof.
  assert (∀ df fname, load_data dir = Ok (df, fname) → clamp df ≠ [] →
            ∃ a, a ≠ [] ∧
              app dir = Done (a, range_color USE_GLOBAL_COLOR_SCALE a)) as Hdone.
  { intros df fname Hload Hne. unfold app. rewrite Hload.
    rewrite bool_decide_false by done.
    assert (time_grouping TIME_STEP (clamp df) ≠ []) as Hb
      by (unfold time_grouping; by destruct (clamp df)).
    pose proof (aggregate_nonempty _ Hb) as Ha.
    rewrite bool_decide_false by done. eauto. }
  split; [apply app_failed|]. split; [|split; [exact Hdone|]].
  - intros df fname Hload Hnil. unfold app. rewrite Hload.
    by rewrite bool_decide_true.
  - destruct (load_data dir) as [[df fname]|e] eqn:Hload.
    + destruct (decide (clamp df = [])) as [Hnil|Hne].
      * unfold app. rewrite Hload. by rewrite bool_decide_true.
      * destruct (Hdone _ _ eq_refl Hne) as (a & _ & ->). done.
    + by rewrite (app_failed _ _ _ _ _ _ _ Hload).
Qed.

End RunExtras.

(** ** Labels and periods *)

(** Two rows that enter [groupby] have the same label exactly when they are
    in the same period: grouping by [t_label] is grouping by [t]. *)
Theorem same_label_same_period (step : time_step) (df : list LoadedRow)
    (b1 b2 : Binned) :
  (step = Monthly → ∀ r, r ∈ df → 1 ≤ month (dt r) ≤ 12) →
  b1 ∈ time_grouping step (clamp df) →
  b2 ∈ time_grouping step (clamp df) →
  t_label b1 = t_label b2 ↔ t b1 = t b2.
Proof.
  intros Hmonth Hb1 Hb2.
  destruct (time_grouping_in_period _ _ _ Hmonth Hb1) as [-> Hp1].
  destruct (time_grouping_in_period _ _ _ Hmonth Hb2) as [-> Hp2].
  split; [|by intros ->].
  intros Hl. apply (f_equal (period_of_label step)) in Hl.
  rewrite !label_read in Hl by done. by injection Hl.
Qed.

Lemma same_label_same_period_witness :
  ∃ b1 b2,
    b1 ∈ time_grouping Yearly (clamp sample_loaded) ∧
    b2 ∈ time_grouping Yearly (clamp sample_loaded) ∧
    (t_label b1 = t_label b2 ↔ t b1 = t b2).
Proof.
  eexists _, _.
  match goal with
  | |- ?A ∧ ?B ∧ _ =>
      assert A as H1 by (vm_compute; apply list_elem_of_here);
      assert B as H2
        by (vm_compute; apply list_elem_of_further, list_elem_of_here)
  end.
  split; [exact H1|]. split; [exact H2|].
  exact (same_label_same_period Yearly sample_loaded _ _
           (λ H, ltac:(discriminate H)) H1 H2).
Defined.

(** ** Rounding *)




(** ** White space around a coordinate *)

Lemma lstrip_blank_app (w s : string) :
  is_blank w = true → lstrip (w +:+ s) = lstrip s.
Proof.
  induction w as [|c w IH]; [done|]. cbn [is_blank].
  intros [Hc Hw]%andb_prop. rewrite append_cons. cbn [lstrip].
  rewrite Hc. by apply IH.
Qed.

Lemma rstrip_blank (w : string) : is_blank w = true → rstrip w = EmptyString.
Proof.
  induction w as [|c w IH]; [done|]. cbn [is_blank].
  intros [Hc Hw]%andb_prop. cbn [rstrip]. by rewrite IH, Hc.
Qed.

Lemma rstrip_app_blank (s w : string) :
  is_blank w = true → rstrip (s +:+ w) = rstrip s.
Proof.
  intros Hw. induction s as [|c s IH].
  - change (EmptyString +:+ w) with w. by rewrite rstrip_blank.
  - rewrite append_cons. cbn [rstrip]. by rewrite IH.
Qed.

Lemma lstrip_blank_or_app (s w : string) :
  (is_blank s = true ∧ lstrip s = EmptyString) ∨
  lstrip (s +:+ w) = lstrip s +:+ w.
Proof.
  induction s as [|c s IH]; [by left|].
  rewrite append_cons. cbn [lstrip is_blank].
  destruct (is_space c) eqn:Hc; [|by right].
  destruct IH as [[Hb Hl]|IH]; [left|right]; by rewrite ?Hb.
Qed.

Lemma lstrip_blank (s : string) : is_blank s = true → lstrip s = EmptyString.
Proof.
  induction s as [|c s IH]; [done|]. cbn [is_blank lstrip].
  intros [-> Hs]%andb_prop. by apply IH.
Qed.

Lemma is_blank_app (s w : string) :
  is_blank s = true → is_blank w = true → is_blank (s +:+ w) = true.
Proof.
  intros Hs Hw. induction s as [|c s IH]; [done|].
  rewrite append_cons. cbn [is_blank] in *.
  apply andb_prop in Hs as [-> Hs]. by apply IH.
Qed.

Lemma strip_padded (w1 x w2 : string) :
  is_blank w1 = true → is_blank w2 = true →
  strip (w1 +:+ x +:+ w2) = strip x.
Proof.
  intros H1 H2. unfold strip. rewrite lstrip_blank_app by done.
  destruct (lstrip_blank_or_app x w2) as [[Hb Hl]|Hl].
  - by rewrite Hl, (lstrip_blank (x +:+ w2)) by by apply is_blank_app.
  - rewrite Hl. by apply rstrip_app_blank.
Qed.

(** White space before and after a coordinate changes nothing: the value,
    or the exception, is that of the bare text. *)
Theorem to_float_ignores_padding
    (py_float : string → option pyfloat) (w1 x w2 : string) :
  is_blank w1 = true → is_blank w2 = true →
  _to_float py_float (CStr (w1 +:+ x +:+ w2)) = _to_float py_float (CStr x).
Proof.
  intros H1 H2. unfold _to_float. by rewrite strip_padded.
Qed.

Lemma to_float_ignores_padding_witness :
  _to_float ref_float (CStr ("  " +:+ "48.85N" +:+ " ")) =
  _to_float ref_float (CStr "48.85N").
Proof.
  apply (to_float_ignores_padding ref_float "  " "48.85N" " "); reflexivity.
Defined.

(** ** The table of groups on machine floats *)

Section Binary64Groups.

Variable compensated : bool.

#[local] Abbreviation group_add := (Binary64.group_add compensated).
#[local] Abbreviation group_insert := (Binary64.group_insert compensated).
#[local] Abbreviation groupby := (Binary64.groupby compensated).
#[local] Abbreviation group_fold := (Binary64.group_fold compensated).
#[local] Abbreviation aggregate := (Binary64.aggregate compensated).
#[local] Abbreviation running_mean := (Binary64.running_mean compensated).

Lemma binary64_groupby_snoc (df : list Binary64.Binned) (r : Binary64.Binned) :
  groupby (df ++ [r])%list = group_insert r (groupby df).
Proof. unfold Binary64.groupby. by rewrite foldl_snoc. Qed.

#[local] Instance binary64_key_lt_trans : Transitive Binary64.key_lt.
Proof. intros a b c. unfold Binary64.key_lt. apply cmp_trans. Qed.

Lemma binary64_group_insert_hd (r : Binary64.Binned)
    (gs : list (key * Binary64.Group)) (x : key * Binary64.Group) :
  key_compare x.1 (Binary64.row_key r) = Lt →
  HdRel Binary64.key_lt x gs → HdRel Binary64.key_lt x (group_insert r gs).
Proof.
  intros Hx Hhd. destruct gs as [|[k g] gs]; cbn [Binary64.group_insert].
  - by constructor.
  - inversion_clear Hhd.
    destruct (key_compare (Binary64.row_key r) k); by constructor.
Qed.

Lemma binary64_group_insert_sorted (r : Binary64.Binned)
    (gs : list (key * Binary64.Group)) :
  Sorted Binary64.key_lt gs → Sorted Binary64.key_lt (group_insert r gs).
Proof.
  induction 1 as [|[k g] gs Hs IH Hhd]; cbn [Binary64.group_insert].
  - repeat constructor.
  - destruct (key_compare (Binary64.row_key r) k) eqn:Hc.
    + constructor; [done|]. destruct Hhd; constructor. done.
    + repeat constructor; done.
    + constructor; [done|]. apply binary64_group_insert_hd; [|done].
      by apply cmp_gt_lt.
Qed.

(** The groups come in strictly ascending key order. *)
Lemma binary64_groupby_sorted (df : list Binary64.Binned) :
  StronglySorted Binary64.key_lt (groupby df).
Proof.
  apply Sorted_StronglySorted; [apply _|].
  induction df as [|r df IH] using rev_ind; [constructor|].
  rewrite binary64_groupby_snoc. by apply binary64_group_insert_sorted.
Qed.

Lemma binary64_group_lookup_None_lt (k : key) (gs : list (key * Binary64.Group)) :
  Forall (λ kg, key_compare k kg.1 = Lt) gs → Binary64.group_lookup k gs = None.
Proof.
  induction 1 as [|[k' g] gs Hk _ IH]; [done|]. cbn in *.
  rewrite decide_False; [done|]. intros ->. by apply cmp_lt_irrefl in Hk.
Qed.

(** Looking a key up after a row went in: the group of the row has the row
    added, the others are as they were. *)
Lemma binary64_group_lookup_insert (k : key) (r : Binary64.Binned)
    (gs : list (key * Binary64.Group)) :
  StronglySorted Binary64.key_lt gs →
  Binary64.group_lookup k (group_insert r gs) =
    if decide (Binary64.row_key r = k)
    then Some (group_add r (default Binary64.group_empty (Binary64.group_lookup k gs)))
    else Binary64.group_lookup k gs.
Proof.
  induction 1 as [|[k' g] gs Hs IH Hall];
    cbn [Binary64.group_insert Binary64.group_lookup].
  - done.
  - destruct (key_compare (Binary64.row_key r) k') eqn:Hc;
      cbn [Binary64.group_lookup].
    + apply cmp_eq in Hc as <-. by case_decide.
    + case_decide as Hk; [|done]. subst k.
      rewrite decide_False by (intros ->; by apply cmp_lt_irrefl in Hc).
      rewrite binary64_group_lookup_None_lt; [done|].
      eapply list.Forall_impl; [exact Hall|].
      intros [k2 g2] Hlt. unfold Binary64.key_lt in Hlt; cbn in *.
      by eapply cmp_trans.
    + rewrite IH.
      destruct (decide (Binary64.row_key r = k)) as [Hr|Hr],
        (decide (k' = k)) as [Hk|Hk]; try done.
      subst k k'. by rewrite cmp_refl in Hc.
Qed.

Lemma binary64_group_rows_snoc (k : key) (df : list Binary64.Binned)
    (r : Binary64.Binned) :
  Binary64.group_rows k (df ++ [r])%list =
    (Binary64.group_rows k df ++
     (if decide (Binary64.row_key r = k) then [r] else []))%list.
Proof. unfold Binary64.group_rows. rewrite list.filter_app. f_equal. Qed.

Lemma binary64_group_fold_snoc (rs : list Binary64.Binned) (r : Binary64.Binned) :
  group_fold (rs ++ [r])%list = group_add r (group_fold rs).
Proof. unfold Binary64.group_fold. by rewrite foldl_snoc. Qed.

(** The table of groups holds, under each key that a row carries, what the
    rows of that key add up to in the order of the frame, and nothing under
    the other keys. *)
Lemma binary64_groupby_lookup (k : key) (df : list Binary64.Binned) :
  Binary64.group_lookup k (groupby df) =
    match Binary64.group_rows k df with
    | [] => None
    | rs => Some (group_fold rs)
    end.
Proof.
  induction df as [|r df IH] using rev_ind; [done|].
  rewrite binary64_groupby_snoc, binary64_group_lookup_insert
    by apply binary64_groupby_sorted.
  rewrite IH, binary64_group_rows_snoc.
  case_decide as Hk.
  - destruct (Binary64.group_rows k df) as [|r0 rs] eqn:Hrows; cbn [default app].
    + done.
    + change (Some (group_add r (group_fold (r0 :: rs))) =
              Some (group_fold ((r0 :: rs) ++ [r])%list)).
      by rewrite binary64_group_fold_snoc.
  - rewrite app_nil_r. done.
Qed.

Lemma binary64_elem_of_group_lookup (k : key) (g : Binary64.Group)
    (gs : list (key * Binary64.Group)) :
  StronglySorted Binary64.key_lt gs →
  (k, g) ∈ gs ↔ Binary64.group_lookup k gs = Some g.
Proof.
  induction 1 as [|[k' g'] gs Hs IH Hall]; cbn [Binary64.group_lookup].
  - split; [by intros ?%elem_of_nil|done].
  - rewrite elem_of_cons, IH. case_decide as Hk.
    + subst k'. split.
      * intros [[= ->]|Hl]; [done|]. exfalso.
        apply IH in Hl. rewrite list.Forall_forall in Hall.
        specialize (Hall _ Hl). by apply cmp_lt_irrefl in Hall.
      * intros [= ->]. by left.
    + split; [|by right]. intros [[= -> ->]|Hl]; done.
Qed.

(** The four columns of a group are the running sums of the four columns
    of its rows. *)
Lemma binary64_group_fold_columns (rs : list Binary64.Binned) :
  Binary64.g_AverageTemperature (group_fold rs) =
    foldl (λ m x, Binary64.mean_add compensated x m) Binary64.mean_empty
      ((λ r, AverageTemperature (Binary64.base r)) <$> rs) ∧
  Binary64.g_AverageTemperatureUncertainty (group_fold rs) =
    foldl (λ m x, Binary64.mean_add compensated x m) Binary64.mean_empty
      ((λ r, AverageTemperatureUncertainty (Binary64.base r)) <$> rs) ∧
  Binary64.g_Latitude (group_fold rs) =
    foldl (λ m x, Binary64.mean_add compensated x m) Binary64.mean_empty
      ((λ r, Latitude (Binary64.base r)) <$> rs) ∧
  Binary64.g_Longitude (group_fold rs) =
    foldl (λ m x, Binary64.mean_add compensated x m) Binary64.mean_empty
      ((λ r, Longitude (Binary64.base r)) <$> rs).
Proof.
  induction rs as [|r rs IH] using rev_ind; [done|].
  rewrite binary64_group_fold_snoc, !fmap_app, !foldl_app.
  destruct IH as (<- & <- & <- & <-). done.
Qed.

(** A row of the output comes from a key under which the frame has rows,
    and holds what the accumulators of these rows give. *)
Lemma binary64_aggregate_row_inv (df : list Binary64.Binned) (a : Binary64.agg.row) :
  a ∈ Binary64.round_temperatures (aggregate df) →
  ∃ r rs,
    Binary64.group_rows (Binary64.agg_key a) df = r :: rs ∧
    a = Binary64.agg.mk (Binary64.agg_key a).1.1 (Binary64.agg_key a).1.2 (Binary64.agg_key a).2
          (Binary64.round1 (Binary64.mean_value
             (Binary64.g_AverageTemperature (group_fold (r :: rs)))))
          (Binary64.round1 (Binary64.mean_value
             (Binary64.g_AverageTemperatureUncertainty (group_fold (r :: rs)))))
          (Binary64.mean_value (Binary64.g_Latitude (group_fold (r :: rs))))
          (Binary64.mean_value (Binary64.g_Longitude (group_fold (r :: rs)))).
Proof.
  unfold Binary64.round_temperatures, Binary64.aggregate.
  rewrite <- list_fmap_compose, list_elem_of_fmap.
  intros ([[[l c] n] g] & -> & Hin).
  apply binary64_elem_of_group_lookup in Hin; [|apply binary64_groupby_sorted].
  rewrite binary64_groupby_lookup in Hin. cbn.
  change (Binary64.agg_key _) with (l, c, n).
  destruct (Binary64.group_rows (l, c, n) df) as [|r rs] eqn:Hrows; [done|].
  injection Hin as <-. eauto.
Qed.

End Binary64Groups.

(** Each row of the aggregated frame holds the means of the rows of its
    key, each the running sum of the column in the order of the rows over
    the number of its values: the two temperature means rounded to one
    decimal, the two coordinate means as they are. *)
Theorem aggregated_values_are_running_means
    (compensated : bool) (df : list Binary64.Binned) (a : Binary64.agg.row) :
  a ∈ Binary64.round_temperatures (Binary64.aggregate compensated df) →
  let rs := Binary64.group_rows (Binary64.agg_key a) df in
  rs ≠ [] ∧
  Binary64.agg.AverageTemperature a =
    Binary64.round1
      (Binary64.running_mean compensated
         ((λ r, AverageTemperature (Binary64.base r)) <$> rs)) ∧
  Binary64.agg.AverageTemperatureUncertainty a =
    Binary64.round1
      (Binary64.running_mean compensated
         ((λ r, AverageTemperatureUncertainty (Binary64.base r)) <$> rs)) ∧
  Binary64.agg.Latitude a =
    Binary64.running_mean compensated ((λ r, Latitude (Binary64.base r)) <$> rs) ∧
  Binary64.agg.Longitude a =
    Binary64.running_mean compensated ((λ r, Longitude (Binary64.base r)) <$> rs).
Proof.
  intros (r & rs & Hrows & Ha)%binary64_aggregate_row_inv. cbv zeta.
  rewrite Hrows. split; [done|]. rewrite Ha.
  cbn [Binary64.agg.AverageTemperature Binary64.agg.AverageTemperatureUncertainty
       Binary64.agg.Latitude Binary64.agg.Longitude].
  unfold Binary64.running_mean.
  destruct (binary64_group_fold_columns compensated (r :: rs))
    as (-> & -> & -> & ->).
  done.
Qed.

Lemma aggregated_values_are_running_means_witness :
  ∃ a,
    a ∈ Binary64.round_temperatures
          (Binary64.aggregate true
             (Binary64.time_grouping Yearly Binary64.opposite_infinities)) ∧
    Binary64.agg.City a = "Oslo" ∧
    Binary64.agg.AverageTemperature a =
      Binary64.round1 (Binary64.running_mean true [Binary64.dec 5 0]) ∧
    Binary64.agg.Latitude a = Binary64.running_mean true [Binary64.dec 5991 2].
Proof.
  eexists.
  match goal with
  | |- ?A ∧ _ => assert A as Hin by (vm_compute; apply list_elem_of_here)
  end.
  split; [exact Hin|]. split; [reflexivity|].
  destruct (aggregated_values_are_running_means _ _ _ Hin)
    as (_ & Ht & _ & Hla & _).
  split; [exact Ht|exact Hla].
Defined.

(** Two tables in strictly ascending key order that answer every lookup
    alike are the same table. *)
Lemma binary64_table_ext (gs gs' : list (key * Binary64.Group)) :
  StronglySorted Binary64.key_lt gs → StronglySorted Binary64.key_lt gs' →
  (∀ k, Binary64.group_lookup k gs = Binary64.group_lookup k gs') → gs = gs'.
Proof.
  intros Hs. revert gs'.
  induction Hs as [|[k g] gs Hs IH Hall]; intros gs' Hs' Heq.
  - destruct gs' as [|[k' g'] gs']; [done|].
    specialize (Heq k'). cbn in Heq. by rewrite decide_True in Heq.
  - destruct Hs' as [|[k' g'] gs' Hs' Hall'].
    { specialize (Heq k). cbn in Heq. by rewrite decide_True in Heq. }
    assert (k = k') as <-.
    { destruct (key_compare k k') eqn:Hc.
      - by apply cmp_eq in Hc.
      - pose proof (Heq k) as Hk. cbn in Hk. rewrite decide_True in Hk by done.
        rewrite decide_False in Hk
          by (intros ->; by apply cmp_lt_irrefl in Hc).
        rewrite binary64_group_lookup_None_lt in Hk; [done|].
        eapply list.Forall_impl; [exact Hall'|].
        intros [k2 g2] Hlt. unfold Binary64.key_lt in Hlt; cbn in *.
        by eapply cmp_trans.
      - apply cmp_gt_lt in Hc.
        pose proof (Heq k') as Hk. cbn in Hk.
        rewrite (decide_True (P:=k' = k')) in Hk by done.
        rewrite decide_False in Hk
          by (intros ->; by apply cmp_lt_irrefl in Hc).
        rewrite binary64_group_lookup_None_lt in Hk; [done|].
        eapply list.Forall_impl; [exact Hall|].
        intros [k2 g2] Hlt. unfold Binary64.key_lt in Hlt; cbn in *.
        by eapply cmp_trans. }
    pose proof (Heq k) as Hk. cbn in Hk. rewrite !decide_True in Hk by done.
    injection Hk as <-. f_equal. apply IH; [done|].
    intros k2. specialize (Heq k2). cbn in Heq.
    destruct (decide (k = k2)) as [<-|Hne]; [|done].
    rewrite !binary64_group_lookup_None_lt; [done| |].
    + exact Hall'.
    + exact Hall.
Qed.

(** The order of the rows matters within a group only: two frames in which
    every group has the same rows in the same order aggregate to the same
    frame, however the groups are interleaved. *)
Theorem row_order_matters_within_groups_only
    (compensated : bool) (df df' : list Binary64.Binned) :
  (∀ k, Binary64.group_rows k df = Binary64.group_rows k df') →
  Binary64.round_temperatures (Binary64.aggregate compensated df) =
  Binary64.round_temperatures (Binary64.aggregate compensated df').
Proof.
  intros Hrows. unfold Binary64.aggregate. do 2 f_equal.
  apply binary64_table_ext; [apply binary64_groupby_sorted..|].
  intros k. by rewrite !binary64_groupby_lookup, Hrows.
Qed.

Lemma row_order_matters_within_groups_only_witness :
  Binary64.two_cities ≠ Binary64.two_cities_interleaved ∧
  Binary64.round_temperatures
    (Binary64.aggregate true Binary64.two_cities) =
  Binary64.round_temperatures
    (Binary64.aggregate true Binary64.two_cities_interleaved).
Proof.
  split; [intros H; vm_compute in H; discriminate H|].
  apply row_order_matters_within_groups_only.
  intros k. unfold Binary64.group_rows, Binary64.two_cities,
    Binary64.two_cities_interleaved, Binary64.time_grouping.
  cbn [fmap list_fmap]. rewrite !filter_cons, !filter_nil.
  repeat match goal with
  | |- context [Binary64.row_key ?r] =>
      let x := eval vm_compute in (Binary64.row_key r) in
      change (Binary64.row_key r) with x
  end.
  repeat case_decide; congruence.
Defined.

(** On machine floats as well the aggregated frame comes in strictly
    ascending order of its keys, compared as Python compares tuples of
    [str]; so no key comes twice. *)
Theorem aggregated_keys_ascending_on_floats
    (step : time_step) (use_global compensated : bool)
    (df : list Binary64.LoadedRow) a rc :
  Binary64.app step use_global compensated df = Done (a, rc) →
  StronglySorted
    (λ x y, key_compare (Binary64.agg_key x) (Binary64.agg_key y) = Lt) a ∧
  NoDup (Binary64.agg_key <$> a).
Proof.
  intros [-> _]%binary64_app_done_inv.
  assert (StronglySorted
            (λ x y, key_compare (Binary64.agg_key x) (Binary64.agg_key y) = Lt)
            (Binary64.round_temperatures
               (Binary64.aggregate compensated
                  (Binary64.time_grouping step (Binary64.clamp df))))) as Hs.
  { unfold Binary64.round_temperatures, Binary64.aggregate.
    rewrite <- list_fmap_compose.
    eapply StronglySorted_fmap; [|apply binary64_groupby_sorted].
    by intros [[[l1 c1] n1] g1] [[[l2 c2] n2] g2] Hlt. }
  split; [exact Hs|].
  induction Hs as [|x l _ IH Hall]; [constructor|].
  rewrite fmap_cons. constructor; [|exact IH].
  intros (y & Hy & Hin)%list_elem_of_fmap.
  rewrite list.Forall_forall in Hall. specialize (Hall _ Hin).
  rewrite Hy in Hall. by apply cmp_lt_irrefl in Hall.
Qed.

Lemma aggregated_keys_ascending_on_floats_witness :
  ∃ a rc,
    Binary64.app Yearly true true Binary64.opposite_infinities = Done (a, rc) ∧
    NoDup (Binary64.agg_key <$> a).
Proof.
  eexists _, _.
  match goal with
  | |- ?A ∧ _ => assert A as Happ by (vm_compute; reflexivity)
  end.
  split; [exact Happ|].
  exact (proj2 (aggregated_keys_ascending_on_floats _ _ _ _ _ _ Happ)).
Defined.
